(** * Student records in the browser: the store, the validator and the form

    A shallow embedding of [script.js]: the IndexedDB object store
    ["students"] with its unique index on [studentId], the form submission
    handler, the uniqueness check, the table rendering with its filter, and
    the edit / delete handlers.

    Conventions of the embedding.
    - A JavaScript string is a [string]; each [ascii] is one code unit in
      the range U+0000..U+00FF (Latin-1).  Whitespace and letter case are
      those of ECMAScript on that range.
    - Record ids are the numbers the key generator hands out; they are
      mathematical integers ([Z]).
    - The hidden input [recordId] only ever receives [""] (from [resetForm])
      or the decimal rendering of a stored id (from [prepareUpdateForm]);
      it is modelled as [option Z], [None] standing for [""].  Then
      [parseInt(recordId)] is the number itself and [recordId ? .. : ..]
      tests for [Some].
    - The values of the five visible controls are whatever the user left
      in them; they come with the submit event instead of being kept in
      the page state.
    - Asynchronous requests are sequenced: a request is issued, its
      [onsuccess] or [onerror] callback runs, then the transaction's
      [oncomplete] callback runs if the transaction was not aborted.
      Each handler runs from its dispatch to the last of these callbacks
      before the next one is dispatched.  What happens when two handlers
      overlap (a second submit while the first still awaits its lookup,
      two cursor loops filling the one table) is outside the model.
    - The trace of a page lists [showMessage] calls, requests to the store
      and uncaught exceptions; [console] output and styling are left out. *)

From Stdlib Require Import ZArith List Bool Ascii String Sorted Lia.
Import ListNotations.
Local Open Scope string_scope.
Local Open Scope Z_scope.


(* ------------------------------------------------------------------ *)
(** ** JavaScript strings *)

Module JsString.

(** [!s] for a string [s]: only the empty string is falsy. *)
Definition isEmpty (s : string) : bool :=
  match s with
  | EmptyString => true
  | String _ _ => false
  end.

(** WhiteSpace and LineTerminator code units below U+0100:
    TAB, LF, VT, FF, CR, SP and NBSP.  This is also the class [\s]. *)
Definition isWhiteSpace (c : ascii) : bool :=
  let n := N_of_ascii c in
  ((9 <=? n) && (n <=? 13) || (n =? 32) || (n =? 160))%N.

Fixpoint trimStart (s : string) : string :=
  match s with
  | EmptyString => EmptyString
  | String c s' => if isWhiteSpace c then trimStart s' else s
  end.

Fixpoint trimEnd (s : string) : string :=
  match s with
  | EmptyString => EmptyString
  | String c s' =>
      match trimEnd s' with
      | EmptyString => if isWhiteSpace c then EmptyString else String c EmptyString
      | t => String c t
      end
  end.

(** [s.trim()] *)
Definition trim (s : string) : string := trimEnd (trimStart s).

(** Upper-case letters below U+0100: A-Z, and U+00C0..U+00DE without the
    multiplication sign U+00D7.  Each has its lower-case form 32 above. *)
Definition isUpper (c : ascii) : bool :=
  let n := N_of_ascii c in
  ((65 <=? n) && (n <=? 90)
   || (192 <=? n) && (n <=? 222) && negb (n =? 215))%N.

Definition toLowerChar (c : ascii) : ascii :=
  if isUpper c then ascii_of_N (N_of_ascii c + 32) else c.

(** [s.toLowerCase()] *)
Fixpoint toLowerCase (s : string) : string :=
  match s with
  | EmptyString => EmptyString
  | String c s' => String (toLowerChar c) (toLowerCase s')
  end.

(** [s.startsWith(t)] *)
Fixpoint startsWith (s t : string) {struct t} : bool :=
  match t, s with
  | EmptyString, _ => true
  | String _ _, EmptyString => false
  | String b t', String a s' => Ascii.eqb a b && startsWith s' t'
  end.

(** [s.includes(t)]: [t] occurs in [s] at some position. *)
Fixpoint includes (s t : string) : bool :=
  startsWith s t
  || match s with
     | EmptyString => false
     | String _ s' => includes s' t
     end.

(** Every code unit of [s] satisfies [p]. *)
Fixpoint allChars (p : ascii -> bool) (s : string) : bool :=
  match s with
  | EmptyString => true
  | String c s' => p c && allChars p s'
  end.

(** The mathematical notion [includes] decides. *)
Definition Substring (t s : string) : Prop :=
  exists pre post, s = pre ++ t ++ post.

End JsString.

(* ------------------------------------------------------------------ *)
(** ** Regular expressions, as far as the e-mail pattern needs them *)

Module RegExp.

Inductive regex : Type :=
| Never : regex
| Eps : regex
| Class : (ascii -> bool) -> regex
| Seq : regex -> regex -> regex
| Alt : regex -> regex -> regex
| Star : regex -> regex.

(** [r+] *)
Definition Plus (r : regex) : regex := Seq r (Star r).

(** The strings a pattern denotes. *)
Inductive Matches : regex -> string -> Prop :=
| MEps : Matches Eps ""
| MClass p c : p c = true -> Matches (Class p) (String c "")
| MSeq r1 r2 s1 s2 : Matches r1 s1 -> Matches r2 s2 -> Matches (Seq r1 r2) (s1 ++ s2)
| MAltL r1 r2 s : Matches r1 s -> Matches (Alt r1 r2) s
| MAltR r1 r2 s : Matches r2 s -> Matches (Alt r1 r2) s
| MStar0 r : Matches (Star r) ""
| MStarS r c s1 s2 :
    Matches r (String c s1) -> Matches (Star r) s2 -> Matches (Star r) (String c s1 ++ s2).

Fixpoint nullable (r : regex) : bool :=
  match r with
  | Never => false
  | Eps => true
  | Class _ => false
  | Seq r1 r2 => nullable r1 && nullable r2
  | Alt r1 r2 => nullable r1 || nullable r2
  | Star _ => true
  end.

(** What remains of [r] once the code unit [c] has been read. *)
Fixpoint deriv (c : ascii) (r : regex) : regex :=
  match r with
  | Never => Never
  | Eps => Never
  | Class p => if p c then Eps else Never
  | Seq r1 r2 =>
      if nullable r1
      then Alt (Seq (deriv c r1) r2) (deriv c r2)
      else Seq (deriv c r1) r2
  | Alt r1 r2 => Alt (deriv c r1) (deriv c r2)
  | Star r1 => Seq (deriv c r1) (Star r1)
  end.

(** [/^r$/.test(s)]: the whole of [s] is matched by [r]. *)
Fixpoint test (r : regex) (s : string) : bool :=
  match s with
  | EmptyString => nullable r
  | String c s' => test (deriv c r) s'
  end.

(** [[^\s@]] *)
Definition notSpaceNorAt (c : ascii) : bool :=
  negb (JsString.isWhiteSpace c) && negb (Ascii.eqb c "@").

(** [/^[^\s@]+@[^\s@]+\.[^\s@]+$/] *)
Definition emailRegex : regex :=
  Seq (Plus (Class notSpaceNorAt))
    (Seq (Class (Ascii.eqb "@"))
       (Seq (Plus (Class notSpaceNorAt))
          (Seq (Class (Ascii.eqb "."))
             (Plus (Class notSpaceNorAt))))).

(** A part of an address: not empty, no whitespace, no [@]. *)
Definition Part (s : string) : Prop :=
  s <> "" /\ JsString.allChars notSpaceNorAt s = true.

End RegExp.

(* ------------------------------------------------------------------ *)
(** ** The object store ["students"]

  [initDB] creates the store with [keyPath: "id"], [autoIncrement: true]
  and an index on [studentId] declared [unique: true].  The definitions
  below are the behaviour of such a store: records are kept in ascending
  key order, [add] draws the key from the key generator, [put] stores at
  the key found in the record and replaces what was there, both are
  rejected with a [ConstraintError] when another record already carries
  the same [studentId], and a rejected request aborts its transaction, so
  nothing of it is kept. *)

Module IDB.

(** The object literal [{ studentId, fullname, email, course, yearLevel }]
    the submit handler builds; it has no [id] yet. *)
Record Fields : Type := mkFields {
  f_studentId : string;
  f_fullname : string;
  f_email : string;
  f_course : string;
  f_yearLevel : string
}.

(** A stored record: the five fields and the key. *)
Record StudentRecord : Type := mkRecord {
  id : Z;
  studentId : string;
  fullname : string;
  email : string;
  course : string;
  yearLevel : string
}.

(** [record.id = k] *)
Definition withId (k : Z) (v : Fields) : StudentRecord :=
  {| id := k;
     studentId := f_studentId v;
     fullname := f_fullname v;
     email := f_email v;
     course := f_course v;
     yearLevel := f_yearLevel v |}.

Definition fieldsOf (r : StudentRecord) : Fields :=
  {| f_studentId := studentId r;
     f_fullname := fullname r;
     f_email := email r;
     f_course := course r;
     f_yearLevel := yearLevel r |}.

Record ObjectStore : Type := mkStore {
  objects : list StudentRecord;   (* in ascending key order *)
  keyGenerator : Z                (* the next key [add] hands out *)
}.

(** The store [onupgradeneeded] creates. *)
Definition created : ObjectStore := {| objects := []; keyGenerator := 1 |}.

Inductive DOMException : Type := ConstraintError.

(** How a read-write transaction made of one request ends. *)
Inductive Outcome : Type :=
| Committed (db' : ObjectStore)
| Aborted (e : DOMException).

Definition hasKey (k : Z) (x : StudentRecord) : bool := id x =? k.
Definition hasStudentId (s : string) (x : StudentRecord) : bool :=
  String.eqb (studentId x) s.

(** Another record already carries the [studentId] of [r]. *)
Definition violatesUnique (r : StudentRecord) (db : ObjectStore) : bool :=
  existsb (fun x => hasStudentId (studentId r) x && negb (hasKey (id r) x))
          (objects db).

Fixpoint insertByKey (r : StudentRecord) (l : list StudentRecord)
  : list StudentRecord :=
  match l with
  | [] => [r]
  | x :: l' => if id r <? id x then r :: l else x :: insertByKey r l'
  end.

Definition removeKey (k : Z) (l : list StudentRecord) : list StudentRecord :=
  filter (fun x => negb (hasKey k x)) l.

(** Storing a record: whatever was at its key goes, the record takes its
    place in key order, and the key generator moves past the key. *)
Definition storeRecord (r : StudentRecord) (db : ObjectStore) : ObjectStore :=
  {| objects := insertByKey r (removeKey (id r) (objects db));
     keyGenerator := Z.max (keyGenerator db) (id r + 1) |}.

(** [store.add(value)], [value] without an [id]. *)
Definition add (value : Fields) (db : ObjectStore) : Outcome :=
  let r := withId (keyGenerator db) value in
  if existsb (hasKey (id r)) (objects db) || violatesUnique r db
  then Aborted ConstraintError
  else Committed (storeRecord r db).

(** [store.put(record)], [record] with its [id]. *)
Definition put (r : StudentRecord) (db : ObjectStore) : Outcome :=
  if violatesUnique r db
  then Aborted ConstraintError
  else Committed (storeRecord r db).

(** [store.delete(k)]: never rejected, whether or not [k] is there. *)
Definition delete (k : Z) (db : ObjectStore) : ObjectStore :=
  {| objects := removeKey k (objects db);
     keyGenerator := keyGenerator db |}.

(** [store.get(k)]: the record or [undefined]. *)
Definition get (k : Z) (db : ObjectStore) : option StudentRecord :=
  find (hasKey k) (objects db).

(** [store.index("studentId").get(s)]: the record of lowest key among
    those with that [studentId], or [undefined]. *)
Definition index_get (s : string) (db : ObjectStore) : option StudentRecord :=
  find (hasStudentId s) (objects db).

(** [store.openCursor()] followed by [cursor.continue()] until the end:
    every record, in ascending key order. *)
Definition openCursor (db : ObjectStore) : list StudentRecord := objects db.

(** *** What the engine maintains *)

(** Key order. *)
Definition keyLt (a b : StudentRecord) : Prop := id a < id b.

Record wf (db : ObjectStore) : Prop := {
  wf_sorted : StronglySorted keyLt (objects db);
  wf_index : forall a b, In a (objects db) -> In b (objects db) ->
                         studentId a = studentId b -> id a = id b;
  wf_keygen : forall a, In a (objects db) -> id a < keyGenerator db
}.

(** Stores that exist: the created one, and what committed requests make
    of it. *)
Inductive reachable : ObjectStore -> Prop :=
| r_created : reachable created
| r_add db v db' : reachable db -> add v db = Committed db' -> reachable db'
| r_put db r db' : reachable db -> put r db = Committed db' -> reachable db'
| r_delete db k : reachable db -> reachable (delete k db).

End IDB.

(* ------------------------------------------------------------------ *)
(** ** The page: form, message box, table and handlers *)

Import JsString RegExp IDB.

(** The second argument of [showMessage]. *)
Inductive Kind : Type := success | error.

(** What the handlers do that can be observed from outside, in order. *)
Inductive Event : Type :=
| ShowMessage (message : string) (type : Kind)   (* showMessage(message, type) *)
| IndexGet (studentId : string)                  (* index.get(studentId) *)
| StoreAdd (record : Fields)                     (* store.add(record) *)
| StorePut (record : StudentRecord)              (* store.put(record) *)
| StoreDelete (id : Z)                           (* store.delete(id) *)
| Uncaught (exn : string).                       (* an exception no handler catches *)

(** A row of [#recordsTable tbody]: the row built from a record, with its
    buttons, or a single cell spanning the table.  Both are assigned
    through [innerHTML]: the string of a [NoticeRow] is what stands
    between the cell's tags, markup as it is assigned, with the filter
    text put in unescaped, and not the text a browser renders from it. *)
Inductive Row : Type :=
| DataRow (data : StudentRecord)
| NoticeRow (text : string).

Record Page : Type := mkPage {
  db : ObjectStore;
  recordId : option Z;           (* recordIdInput.value *)
  originalId : option string;    (* recordIdInput.dataset.originalId, [None] while undefined *)
  tableBody : list Row;
  trace : list Event
}.

Definition setDb (d : ObjectStore) (st : Page) : Page :=
  mkPage d (recordId st) (originalId st) (tableBody st) (trace st).
Definition setTableBody (rows : list Row) (st : Page) : Page :=
  mkPage (db st) (recordId st) (originalId st) rows (trace st).
Definition setForm (rid : option Z) (orig : option string) (st : Page) : Page :=
  mkPage (db st) rid orig (tableBody st) (trace st).
Definition emit (e : Event) (st : Page) : Page :=
  mkPage (db st) (recordId st) (originalId st) (tableBody st) (trace st ++ [e]).

Definition showMessage (message : string) (type : Kind) (st : Page) : Page :=
  emit (ShowMessage message type) st.

(** How a read request ends. *)
Inductive Request (A : Type) : Type :=
| onsuccess (result : A)
| onerror.
Arguments onsuccess {A} result.
Arguments onerror {A}.

(** [index.get(studentId)]; [fails] tells whether the engine reports an
    error instead of a result. *)
Definition indexGetRequest (fails : bool) (studentId : string) (d : ObjectStore)
  : Request (option StudentRecord) :=
  if fails then onerror else onsuccess (index_get studentId d).

(** [existingRecord.id === excludeId], [excludeId] a number or [null]. *)
Definition idIs (excludeId : option Z) (existingRecord : StudentRecord) : bool :=
  match excludeId with
  | Some k => id existingRecord =? k
  | None => false
  end.

Definition isStudentIdUnique (fails : bool) (studentId : string)
  (excludeId : option Z) (d : ObjectStore) : bool :=
  match indexGetRequest fails studentId d with
  | onsuccess None => true
  | onsuccess (Some existingRecord) =>
      if idIs excludeId existingRecord then true else false
  | onerror => false
  end.

Definition quote : string := String (ascii_of_nat 34) EmptyString.

(** The test of the cursor callback, [filter] being the lower-cased text. *)
Definition matchesFilter (filter : string) (data : StudentRecord) : bool :=
  isEmpty filter
  || includes (toLowerCase (fullname data)) filter
  || includes (toLowerCase (studentId data)) filter
  || includes (toLowerCase (course data)) filter.

(** The cursor callback, called once per record and once at the end. *)
Fixpoint cursorLoop (filterText filter : string) (cursor : list StudentRecord)
  (rows : list Row) : list Row :=
  match cursor with
  | data :: rest =>
      cursorLoop filterText filter rest
        (if matchesFilter filter data then (rows ++ [DataRow data])%list else rows)
  | [] =>
      if (Nat.eqb (List.length rows) 0) && negb (isEmpty filter)
      then (rows ++ [NoticeRow ("No records found matching " ++ quote ++ filterText ++ quote ++ ".")])%list
      else if Nat.eqb (List.length rows) 0
      then (rows ++ [NoticeRow "No student records in the database."])%list
      else rows
  end.

(** What [displayRecords] is called with: nothing, a string, or, as the
    [oncomplete] handler of [deleteRecord], the completion event. *)
Inductive Arg : Type :=
| NoArg
| Text (filterText : string)
| CompleteEvent.

Definition displayRecords (arg : Arg) (st : Page) : Page :=
  let st := setTableBody [] st in
  let run filterText :=
    setTableBody
      (cursorLoop filterText (toLowerCase filterText) (openCursor (db st)) []) st in
  match arg with
  | NoArg => run ""
  | Text filterText => run filterText
  | CompleteEvent =>
      (* an event object has no [toLowerCase] *)
      emit (Uncaught "TypeError: filterText.toLowerCase is not a function") st
  end.

(** The records shown in the table. *)
Fixpoint shown (rows : list Row) : list StudentRecord :=
  match rows with
  | [] => []
  | DataRow data :: rows' => data :: shown rows'
  | NoticeRow _ :: rows' => shown rows'
  end.

Definition resetForm (st : Page) : Page :=
  showMessage "Form reset." success (setForm None (Some "") st).

Definition createRecord (record : Fields) (st : Page) : Page :=
  let st := emit (StoreAdd record) st in
  match add record (db st) with
  | Committed db' =>
      let st := showMessage "Student record added successfully!" success (setDb db' st) in
      displayRecords NoArg (resetForm st)
  | Aborted _ =>
      showMessage "Failed to add record. Student ID might already exist." error st
  end.

Definition updateRecord (record : StudentRecord) (st : Page) : Page :=
  let st := emit (StorePut record) st in
  match put record (db st) with
  | Committed db' =>
      let st := showMessage ("Record for " ++ fullname record ++ " updated successfully!")
                  success (setDb db' st) in
      displayRecords NoArg (resetForm st)
  | Aborted _ =>
      showMessage "Failed to update record." error st
  end.

Definition deleteRecord (k : Z) (st : Page) : Page :=
  let st := emit (StoreDelete k) st in
  let st := showMessage "Record deleted successfully!" success
              (setDb (delete k (db st)) st) in
  displayRecords CompleteEvent st.

(** [confirmed] is the answer of [window.confirm]. *)
Definition confirmDelete (k : Z) (name : string) (confirmed : bool) (st : Page) : Page :=
  if confirmed then deleteRecord k st else st.

Definition prepareUpdateForm (k : Z) (st : Page) : Page :=
  match get k (db st) with
  | Some data =>
      showMessage ("Editing record for " ++ fullname data ++ ".") success
        (setForm (Some (id data)) (Some (studentId data)) st)
  | None => showMessage "Record not found for editing." error st
  end.

(** The keys of [record] with their values, in the order [for .. in]
    visits them. *)
Definition entries (record : Fields) : list (string * string) :=
  [ ("studentId", f_studentId record);
    ("fullname", f_fullname record);
    ("email", f_email record);
    ("course", f_course record);
    ("yearLevel", f_yearLevel record) ].

(** The key at which the loop over [record] returns, if it does. *)
Definition firstFalsy (record : Fields) : option string :=
  option_map fst (find (fun kv => isEmpty (snd kv)) (entries record)).

(** [recordIdInput.dataset.originalId !== studentId] *)
Definition differsFrom (original : option string) (studentId : string) : bool :=
  match original with
  | Some o => negb (String.eqb o studentId)
  | None => true
  end.

(** The object [record] of the submit handler, from the values of the five
    controls. *)
Definition recordOf (input : Fields) : Fields :=
  {| f_studentId := trim (f_studentId input);
     f_fullname := trim (f_fullname input);
     f_email := trim (f_email input);
     f_course := f_course input;
     f_yearLevel := f_yearLevel input |}.

(** [recordId === "" || (recordId !== "" && originalId !== studentId)] *)
Definition checkNeeded (rid : option Z) (original : option string)
  (studentId : string) : bool :=
  match rid with
  | None => true
  | Some _ => differsFrom original studentId
  end.

(** [form.onsubmit]; [input] holds the values of the five controls and
    [readFails] whether the index lookup, if made, ends in an error. *)
Definition onsubmit (readFails : bool) (input : Fields) (st : Page) : Page :=
  let record := recordOf input in
  match firstFalsy record with
  | Some key => showMessage ("Please fill out the " ++ key ++ " field.") error st
  | None =>
      if negb (test emailRegex (f_email record))
      then showMessage "Please enter a valid email address." error st
      else
        let write st :=
          match recordId st with
          | Some k => updateRecord (withId k record) st
          | None => createRecord record st
          end in
        if checkNeeded (recordId st) (originalId st) (f_studentId record)
        then
          let st := emit (IndexGet (f_studentId record)) st in
          if isStudentIdUnique readFails (f_studentId record) (recordId st) (db st)
          then write st
          else showMessage ("Student ID " ++ f_studentId record ++ " already exists.") error st
        else write st
  end.

(** [searchInput.oninput] *)
Definition oninput (value : string) (st : Page) : Page :=
  displayRecords (Text value) st.

(** The page once [initDB] has opened the database [d]. *)
Definition initDB (d : ObjectStore) : Page :=
  displayRecords NoArg (mkPage d None None [] []).

(** What can happen on the page. *)
Inductive Action : Type :=
| Submitted (readFails : bool) (input : Fields)
| EditClicked (k : Z)
| DeleteClicked (k : Z) (name : string) (confirmed : bool)
| ResetClicked
| Typed (value : string).

Definition handle (a : Action) (st : Page) : Page :=
  match a with
  | Submitted readFails input => onsubmit readFails input st
  | EditClicked k => prepareUpdateForm k st
  | DeleteClicked k name confirmed => confirmDelete k name confirmed st
  | ResetClicked => resetForm st
  | Typed value => oninput value st
  end.

Definition run (actions : list Action) (st : Page) : Page :=
  fold_left (fun st a => handle a st) actions st.

(* ------------------------------------------------------------------ *)
(** ** Vocabulary of the properties *)

(** The values of the five controls pass the first two checks of the
    submit handler: none is empty ([studentId], [fullname] and [email]
    after trimming, [course] and [yearLevel] as selected) and the
    e-mail address has the required shape. *)
Definition Valid (input : Fields) : Prop :=
  trim (f_studentId input) <> ""
  /\ trim (f_fullname input) <> ""
  /\ trim (f_email input) <> ""
  /\ f_course input <> ""
  /\ f_yearLevel input <> ""
  /\ test emailRegex (trim (f_email input)) = true.

(** All five fields non-empty once trimmed, [course] and [yearLevel]
    included. *)
Definition NonEmptyTrimmed (input : Fields) : Prop :=
  trim (f_studentId input) <> ""
  /\ trim (f_fullname input) <> ""
  /\ trim (f_email input) <> ""
  /\ trim (f_course input) <> ""
  /\ trim (f_yearLevel input) <> "".

(** The five fields of [r] are the trimmed values of [input], [course]
    and [yearLevel] included. *)
Definition AllTrimmed (input : Fields) (r : StudentRecord) : Prop :=
  studentId r = trim (f_studentId input)
  /\ fullname r = trim (f_fullname input)
  /\ email r = trim (f_email input)
  /\ course r = trim (f_course input)
  /\ yearLevel r = trim (f_yearLevel input).

(** The fields of [r] as the submit handler builds them from [input]. *)
Definition AsSubmitted (input : Fields) (r : StudentRecord) : Prop :=
  studentId r = trim (f_studentId input)
  /\ fullname r = trim (f_fullname input)
  /\ email r = trim (f_email input)
  /\ course r = f_course input
  /\ yearLevel r = f_yearLevel input.

(** Every business field of a stored record is there and not empty. *)
Definition Complete (r : StudentRecord) : Prop :=
  studentId r <> "" /\ fullname r <> "" /\ email r <> ""
  /\ course r <> "" /\ yearLevel r <> "".

(** Requests that write to the store on behalf of a submission. *)
Definition isWrite (e : Event) : bool :=
  match e with
  | StoreAdd _ | StorePut _ => true
  | _ => false
  end.

(** What one submission adds to the trace. *)
Definition issued (readFails : bool) (input : Fields) (st : Page) : list Event :=
  skipn (List.length (trace st)) (trace (onsubmit readFails input st)).

(** A submission is accepted when it gets as far as a write. *)
Definition accepted (readFails : bool) (input : Fields) (st : Page) : bool :=
  existsb isWrite (issued readFails input st).

(** The lower-cased text occurs in the lower-cased [fullname], [studentId]
    or [course]. *)
Definition MatchesText (text : string) (r : StudentRecord) : Prop :=
  Substring (toLowerCase text) (toLowerCase (fullname r))
  \/ Substring (toLowerCase text) (toLowerCase (studentId r))
  \/ Substring (toLowerCase text) (toLowerCase (course r)).

(** [Filter(records, text)] *)
Definition displayed (text : string) (st : Page) : list StudentRecord :=
  shown (tableBody (oninput text st)).

(** The ways a submission fails validation, in the order they are looked
    for, each with the reads it has made by then and the message it ends
    with. *)
Inductive ValidationFailure (input : Fields) (st : Page)
  : list Event -> string -> Prop :=
| EmptyField pre key post :
    entries (recordOf input) = (pre ++ (key, "") :: post)%list ->
    Forall (fun kv => snd kv <> "") pre ->
    ValidationFailure input st []
      ("Please fill out the " ++ key ++ " field.")
| MalformedEmail :
    Forall (fun kv => snd kv <> "") (entries (recordOf input)) ->
    ~ Matches emailRegex (trim (f_email input)) ->
    ValidationFailure input st []
      "Please enter a valid email address."
| DuplicateStudentId x :
    Forall (fun kv => snd kv <> "") (entries (recordOf input)) ->
    Matches emailRegex (trim (f_email input)) ->
    (recordId st = None \/ originalId st <> Some (trim (f_studentId input))) ->
    In x (objects (db st)) ->
    studentId x = trim (f_studentId input) ->
    Some (id x) <> recordId st ->
    ValidationFailure input st [IndexGet (trim (f_studentId input))]
      ("Student ID " ++ trim (f_studentId input) ++ " already exists.").

(** The page after a submission that changed nothing but the trace. *)
Definition rejected (st : Page) (reads : list Event) (message : string) : Page :=
  mkPage (db st) (recordId st) (originalId st) (tableBody st)
    (trace st ++ reads ++ [ShowMessage message error]).

(** *** Sample data *)

Definition annLee : Fields := mkFields " S1 " "Ann Lee" "a@b.com" "BSIT" "1".
Definition bobCruz : Fields := mkFields "S2" "Bob Cruz" "bob@c.org" "BSCS" "2".

(** A record for id 2 that claims the studentId of Ann Lee. *)
Definition bobAsS1 : StudentRecord := mkRecord 2 "S1" "Bob Cruz" "bob@c.org" "BSCS" "2".

(** Ann Lee's record, id 1, with another name. *)
Definition annRenamed : StudentRecord := mkRecord 1 "S1" "Ann B Lee" "a@b.com" "BSIT" "1".

(** A record for an id the store has never held. *)
Definition caraDiaz : StudentRecord := mkRecord 7 "S7" "Cara Diaz" "cara@d.net" "BSIT" "3".

(** The studentId of Ann Lee in lower case. *)
Definition annLower : Fields := mkFields "s1" "Ann Lee" "ann@b.com" "BSIT" "1".

(** Ann Lee with a course value that begins with a space. *)
Definition annPadded : Fields := mkFields "S1" "Ann Lee" "a@b.com" " BSIT" "1".

(** Ann Lee with a course value that is a single space. *)
Definition annBlankCourse : Fields := mkFields "S1" "Ann Lee" "a@b.com" " " "1".

(** Ann Lee's form with another name typed in. *)
Definition annEdited : Fields := mkFields "S1" "Ann B Lee" "a@b.com" "BSIT" "1".

(** Submissions that fail one check each. *)
Definition noName : Fields := mkFields "S3" "   " "not an address" "BSIT" "1".
Definition badEmail : Fields := mkFields "S3" "Cara Diaz" "cara@d" "BSIT" "1".
Definition takenId : Fields := mkFields "S1" "Cara Diaz" "cara@d.net" "BSIT" "1".

(** One record, id 1, studentId S1. *)
Definition oneStudent : Page := onsubmit false annLee (initDB created).

(** Two records, ids 1 and 2, studentIds S1 and S2. *)
Definition twoStudents : Page := onsubmit false bobCruz oneStudent.

(* ------------------------------------------------------------------ *)
(** ** Vocabulary of further properties *)

(** The two messages of the [onerror] callbacks of [createRecord] and
    [updateRecord]. *)
Definition isWriteFailure (e : Event) : bool :=
  match e with
  | ShowMessage message error =>
      String.eqb message "Failed to add record. Student ID might already exist."
      || String.eqb message "Failed to update record."
  | _ => false
  end.


(** The text fields of a stored record are trimmed and its address has
    the required shape. *)
Definition Normalized (r : StudentRecord) : Prop :=
  trim (studentId r) = studentId r
  /\ trim (fullname r) = fullname r
  /\ trim (email r) = email r
  /\ test emailRegex (email r) = true.

(** The single row of text [displayRecords] shows when no record is
    shown. *)
Definition emptyNotice (filterText : string) : Row :=
  if isEmpty (toLowerCase filterText)
  then NoticeRow "No student records in the database."
  else NoticeRow ("No records found matching " ++ quote ++ filterText ++ quote ++ ".").

(** The table [displayRecords] is expected to leave for [filterText]. *)
Definition tableFor (filterText : string) (d : ObjectStore) : list Row :=
  match List.filter (matchesFilter (toLowerCase filterText)) (openCursor d) with
  | [] => [emptyNotice filterText]
  | records => map DataRow records
  end.

(** The page after a submission whose write was committed as [d']:
    create mode, the whole store in the table. *)
Definition committed (st : Page) (d' : ObjectStore) (events : list Event) : Page :=
  mkPage d' None (Some "") (tableFor "" d')
    (trace st ++ events ++ [ShowMessage "Form reset." success]).

(** Cara Diaz, not yet stored. *)
Definition caraInput : Fields := mkFields "S7" "Cara Diaz" "cara@d.net" "BSIT" "3".

(** Ann Lee's form with another studentId typed in. *)
Definition annMoved : Fields := mkFields "S9" "Ann Lee" "a@b.com" "BSIT" "1".

(* ------------------------------------------------------------------ *)
(** * Facts about strings *)

Section StringFacts.
Import JsString.

Lemma startsWith_spec s t :
  startsWith s t = true <-> exists post, s = t ++ post.
Proof.
  revert s; induction t as [|b t IH]; intros s; simpl.
  - split; [intros _; now exists s | reflexivity].
  - destruct s as [|a s].
    + split; [discriminate | intros [post H]; discriminate].
    + rewrite andb_true_iff, Ascii.eqb_eq, IH. split.
      * intros [-> [post ->]]. now exists post.
      * intros [post H]. injection H as -> ->. split; [reflexivity | now exists post].
Qed.

Lemma includes_spec s t : includes s t = true <-> Substring t s.
Proof.
  unfold Substring. induction s as [|a s IH].
  - simpl. rewrite orb_false_r, startsWith_spec. split.
    + intros [post H]. now exists "", post.
    + intros [pre [post H]]. destruct pre; simpl in H.
      * now exists post.
      * discriminate.
  - cbn [includes]. rewrite orb_true_iff, startsWith_spec, IH. split.
    + intros [[post H] | [pre [post H]]].
      * now exists "", post.
      * exists (String a pre), post. simpl. now rewrite H.
    + intros [pre [post H]]. destruct pre as [|c pre]; simpl in H.
      * left. now exists post.
      * right. injection H as _ H. now exists pre, post.
Qed.

Lemma includes_empty s : includes s "" = true.
Proof. destruct s; reflexivity. Qed.

Lemma includes_refl s : includes s s = true.
Proof.
  apply includes_spec. exists "", "". simpl.
  induction s as [|a s IH]; simpl; [reflexivity | now rewrite <- IH].
Qed.

Lemma isEmpty_true s : isEmpty s = true <-> s = "".
Proof. destruct s; simpl; split; congruence. Qed.

Lemma isEmpty_false s : isEmpty s = false <-> s <> "".
Proof. destruct s; simpl; split; congruence. Qed.

(** Trimming removes whitespace at both ends and nothing else. *)
Lemma trimStart_head s c t : trimStart s = String c t -> isWhiteSpace c = false.
Proof.
  induction s as [|a s IH]; simpl; [discriminate|].
  destruct (isWhiteSpace a) eqn:E; [assumption|].
  intros H. injection H as <- _. exact E.
Qed.

Lemma trimStart_empty s : trimStart s = "" <-> allChars isWhiteSpace s = true.
Proof.
  induction s as [|a s IH]; simpl; [tauto|].
  destruct (isWhiteSpace a); simpl; [assumption|].
  split; discriminate.
Qed.

Lemma trimEnd_empty s : trimEnd s = "" <-> allChars isWhiteSpace s = true.
Proof.
  induction s as [|a s IH]; simpl; [tauto|].
  destruct (trimEnd s) as [|b t] eqn:E.
  - destruct (isWhiteSpace a); simpl.
    + tauto.
    + split; discriminate.
  - split; [discriminate|]. intros H. apply andb_true_iff in H.
    destruct H as [_ H]. apply IH in H. discriminate.
Qed.

Lemma trimStart_allChars p s : allChars p s = true -> allChars p (trimStart s) = true.
Proof.
  induction s as [|a s IH]; simpl; [reflexivity|]. intros H.
  destruct (isWhiteSpace a); [|exact H].
  apply andb_true_iff in H. now apply IH.
Qed.

(** A string trims to nothing exactly when it is whitespace throughout. *)
Lemma trim_empty s : trim s = "" <-> allChars isWhiteSpace s = true.
Proof.
  unfold trim. rewrite trimEnd_empty. split.
  - intros H. apply trimStart_empty.
    destruct (trimStart s) as [|c t] eqn:E; [reflexivity|].
    apply trimStart_head in E. simpl in H. rewrite E in H. discriminate.
  - apply trimStart_allChars.
Qed.

(** The functions on a few strings. *)
Example trim_samples :
  trim "  Ann Lee  " = "Ann Lee"
  /\ trim "   " = ""
  /\ trim "" = ""
  /\ trim (String (ascii_of_nat 9) "S1" ++ String (ascii_of_nat 10) "") = "S1"
  /\ trim (String (ascii_of_nat 160) "x") = "x".
Proof. repeat split; reflexivity. Qed.

Example toLowerCase_samples :
  toLowerCase "BSIT-2 Ann" = "bsit-2 ann"
  /\ toLowerCase "[@Z`{" = "[@z`{"
  /\ toLowerCase (String (ascii_of_nat 201) "") = String (ascii_of_nat 233) ""
  /\ toLowerCase (String (ascii_of_nat 215) "") = String (ascii_of_nat 215) "".
Proof. repeat split; reflexivity. Qed.

Example includes_samples :
  includes "bsit" "si" = true
  /\ includes "bsit" "" = true
  /\ includes "bsit" "bsit" = true
  /\ includes "bsit" "ts" = false
  /\ includes "" "b" = false.
Proof. repeat split; reflexivity. Qed.

End StringFacts.

(* ------------------------------------------------------------------ *)
(** * The matcher decides the denotation *)

Section RegExpFacts.
Import JsString RegExp.

Lemma nullable_spec r : nullable r = true <-> Matches r "".
Proof.
  induction r; simpl.
  - split; [discriminate | intros H; inversion H].
  - split; [constructor | reflexivity].
  - split; [discriminate | intros H; inversion H].
  - rewrite andb_true_iff, IHr1, IHr2. split.
    + intros [H1 H2]. change (Matches (Seq r1 r2) ("" ++ "")). now constructor.
    + intros H. inversion H as [| |? ? s1 s2 H1 H2 E1 E2| | | |]; subst.
      destruct s1; [|discriminate]. simpl in E2. subst. now split.
  - rewrite orb_true_iff, IHr1, IHr2. split.
    + intros [H|H]; [now apply MAltL | now apply MAltR].
    + intros H. inversion H; subst; [now left | now right].
  - split; [constructor | reflexivity].
Qed.

Lemma deriv_spec r : forall c s, Matches (deriv c r) s <-> Matches r (String c s).
Proof.
  induction r; intros c s; simpl.
  - split; intros H; inversion H.
  - split; intros H; inversion H.
  - destruct (b c) eqn:E; split; intros H; inversion H; subst.
    + now constructor.
    + constructor.
    + congruence.
  - assert (A : Matches (Seq (deriv c r1) r2) s ->
                Matches (Seq r1 r2) (String c s)).
    { intros H. inversion H as [| |? ? s1 s2 H1 H2 E1 E2| | | |]; subst.
      apply IHr1 in H1. change (Matches (Seq r1 r2) (String c s1 ++ s2)).
      now constructor. }
    assert (B : Matches (Seq r1 r2) (String c s) ->
                Matches (Seq (deriv c r1) r2) s
                \/ (Matches r1 "" /\ Matches r2 (String c s))).
    { intros H. inversion H as [| |? ? s1 s2 H1 H2 E1 E2| | | |]; subst.
      destruct s1 as [|a s1]; simpl in E2.
      - right. subst. now split.
      - left. injection E2 as -> <-. constructor; [now apply IHr1 | assumption]. }
    destruct (nullable r1) eqn:N.
    + split.
      * intros H. inversion H; subst; [now apply A|].
        change (Matches (Seq r1 r2) ("" ++ String c s)).
        constructor; [now apply nullable_spec | now apply IHr2].
      * intros H. destruct (B H) as [H'|[_ H']].
        -- now apply MAltL.
        -- apply MAltR. now apply IHr2.
    + split; [exact A|].
      intros H. destruct (B H) as [H'|[H' _]]; [assumption|].
      apply nullable_spec in H'. congruence.
  - split; intros H; inversion H; subst.
    + apply MAltL. now apply IHr1.
    + apply MAltR. now apply IHr2.
    + apply MAltL. now apply IHr1.
    + apply MAltR. now apply IHr2.
  - split.
    + intros H. inversion H as [| |? ? s1 s2 H1 H2 E1 E2| | | |]; subst.
      apply IHr in H1. change (Matches (Star r) (String c s1 ++ s2)).
      now constructor.
    + intros H. inversion H as [| | | | | |? a s1 s2 H1 H2 E1 E2]; subst.
      constructor; [now apply IHr | assumption].
Qed.

(** The matcher decides the denotation. *)
Theorem test_spec r s : test r s = true <-> Matches r s.
Proof.
  revert r; induction s as [|c s IH]; intros r; simpl.
  - apply nullable_spec.
  - rewrite IH. apply deriv_spec.
Qed.

Lemma Matches_Seq r1 r2 s :
  Matches (Seq r1 r2) s <->
  exists s1 s2, s = s1 ++ s2 /\ Matches r1 s1 /\ Matches r2 s2.
Proof.
  split.
  - intros H. inversion H as [| |? ? s1 s2 H1 H2 E1 E2| | | |]; subst.
    now exists s1, s2.
  - intros (s1 & s2 & -> & H1 & H2). now constructor.
Qed.

Lemma Matches_Class p s :
  Matches (Class p) s <-> exists c, s = String c "" /\ p c = true.
Proof.
  split.
  - intros H. inversion H; subst. now exists c.
  - intros (c & -> & H). now constructor.
Qed.

Lemma Matches_char a s : Matches (Class (Ascii.eqb a)) s <-> s = String a "".
Proof.
  rewrite Matches_Class. split.
  - intros (c & -> & H). apply Ascii.eqb_eq in H. now subst.
  - intros ->. exists a. split; [reflexivity | apply Ascii.eqb_refl].
Qed.

Lemma Matches_Star_Class p s :
  Matches (Star (Class p)) s <-> allChars p s = true.
Proof.
  split.
  - intros H. remember (Star (Class p)) as r eqn:E.
    induction H as [| | | | | |r c s1 s2 H1 _ H2 IH2]; try discriminate.
    + reflexivity.
    + injection E as ->. inversion H1; subst. simpl.
      apply andb_true_iff. split; [assumption | now apply IH2].
  - induction s as [|c s IH]; simpl; intros H.
    + constructor.
    + apply andb_true_iff in H. destruct H as [Hc Hs].
      change (Matches (Star (Class p)) (String c "" ++ s)).
      constructor; [now constructor | now apply IH].
Qed.

Lemma Matches_Plus_Class p s :
  Matches (Plus (Class p)) s <-> s <> "" /\ allChars p s = true.
Proof.
  unfold Plus. rewrite Matches_Seq. split.
  - intros (s1 & s2 & -> & H1 & H2).
    apply Matches_Class in H1. destruct H1 as (c & -> & Hc).
    apply Matches_Star_Class in H2. simpl. rewrite Hc, H2.
    split; [discriminate | reflexivity].
  - intros [N H]. destruct s as [|c s]; [now elim N|]. simpl in H.
    apply andb_true_iff in H. destruct H as [Hc Hs].
    exists (String c ""), s. repeat split.
    + now constructor.
    + now apply Matches_Star_Class.
Qed.

(** X1.  The strings the e-mail pattern accepts: a part, [@], a part, a
    dot, a part, each part non-empty and free of whitespace and [@]. *)
Theorem emailRegex_shape s :
  test emailRegex s = true <->
  exists l d t, s = l ++ "@" ++ d ++ "." ++ t /\ Part l /\ Part d /\ Part t.
Proof.
  rewrite test_spec. unfold emailRegex, Part. split.
  - intros H.
    apply Matches_Seq in H. destruct H as (l & s1 & -> & Hl & H).
    apply Matches_Seq in H. destruct H as (a & s2 & -> & Ha & H).
    apply Matches_Seq in H. destruct H as (d & s3 & -> & Hd & H).
    apply Matches_Seq in H. destruct H as (b & t & -> & Hb & Ht).
    apply Matches_char in Ha, Hb. subst a b.
    apply Matches_Plus_Class in Hl, Hd, Ht.
    now exists l, d, t.
  - intros (l & d & t & -> & Hl & Hd & Ht).
    apply Matches_Plus_Class in Hl, Hd, Ht.
    repeat (apply MSeq; try assumption); now apply Matches_char.
Qed.

Example emailRegex_samples :
  test emailRegex "a@b.com" = true
  /\ test emailRegex "ann.lee@mail.example.org" = true
  /\ test emailRegex "a@b" = false
  /\ test emailRegex "a@b." = false
  /\ test emailRegex "@b.c" = false
  /\ test emailRegex "a b@c.d" = false
  /\ test emailRegex "a@b@c.d" = false
  /\ test emailRegex "" = false.
Proof. repeat split; reflexivity. Qed.

End RegExpFacts.

(* ------------------------------------------------------------------ *)
(** * Facts about the object store *)

Section StoreFacts.

Implicit Types (r x a b : StudentRecord) (l : list StudentRecord)
  (k : Z) (s : string) (d : ObjectStore).

Lemma hasKey_true k x : hasKey k x = true <-> id x = k.
Proof. unfold hasKey. apply Z.eqb_eq. Qed.

Lemma hasKey_false k x : hasKey k x = false <-> id x <> k.
Proof. unfold hasKey. apply Z.eqb_neq. Qed.

Lemma hasStudentId_true s x : hasStudentId s x = true <-> studentId x = s.
Proof. unfold hasStudentId. apply String.eqb_eq. Qed.

Lemma hasStudentId_false s x : hasStudentId s x = false <-> studentId x <> s.
Proof. unfold hasStudentId. apply String.eqb_neq. Qed.

Lemma In_removeKey k l x : In x (removeKey k l) <-> In x l /\ id x <> k.
Proof.
  unfold removeKey. rewrite filter_In, negb_true_iff, hasKey_false. tauto.
Qed.

Lemma In_insertByKey r l x : In x (insertByKey r l) <-> x = r \/ In x l.
Proof.
  induction l as [|y l IH]; simpl.
  - intuition congruence.
  - destruct (id r <? id y); simpl; [|rewrite IH]; intuition congruence.
Qed.

Lemma In_storeRecord r d x :
  In x (objects (storeRecord r d)) <-> x = r \/ (In x (objects d) /\ id x <> id r).
Proof. simpl. now rewrite In_insertByKey, In_removeKey. Qed.

Lemma In_delete k d x :
  In x (objects (delete k d)) <-> In x (objects d) /\ id x <> k.
Proof. simpl. apply In_removeKey. Qed.

(** Searching a list a record was inserted into. *)
Lemma find_insert_hit (p : StudentRecord -> bool) r l :
  p r = true -> (forall x, In x l -> p x = false) ->
  find p (insertByKey r l) = Some r.
Proof.
  intros Hr. induction l as [|y l IH]; intros Hl; simpl.
  - now rewrite Hr.
  - destruct (id r <? id y); simpl.
    + now rewrite Hr.
    + rewrite (Hl y) by now left. apply IH. intros x Hx. apply Hl. now right.
Qed.

Lemma find_insert_miss (p : StudentRecord -> bool) r l :
  p r = false -> find p (insertByKey r l) = find p l.
Proof.
  intros Hr. induction l as [|y l IH]; simpl.
  - now rewrite Hr.
  - destruct (id r <? id y); simpl.
    + now rewrite Hr.
    + now rewrite IH.
Qed.

Lemma find_filter_keep (p q : StudentRecord -> bool) l :
  (forall x, p x = true -> q x = true) -> find p (filter q l) = find p l.
Proof.
  intros Hpq. induction l as [|y l IH]; simpl; [reflexivity|].
  destruct (q y) eqn:Q; simpl.
  - now rewrite IH.
  - destruct (p y) eqn:P; [|assumption].
    apply Hpq in P. congruence.
Qed.

Lemma find_none_iff (p : StudentRecord -> bool) l :
  find p l = None <-> forall x, In x l -> p x = false.
Proof.
  split; [apply find_none|].
  induction l as [|y l IH]; simpl; [reflexivity|]. intros H.
  rewrite (H y) by now left. apply IH. intros x Hx. apply H. now right.
Qed.

(** Reading by key. *)
Lemma get_Some k d x : get k d = Some x -> In x (objects d) /\ id x = k.
Proof.
  unfold get. intros H. apply find_some in H. now rewrite hasKey_true in H.
Qed.

Lemma get_None k d : get k d = None <-> forall x, In x (objects d) -> id x <> k.
Proof.
  unfold get. rewrite find_none_iff.
  split; intros H x Hx; apply hasKey_false; now apply H.
Qed.

Lemma get_storeRecord_same r d : get (id r) (storeRecord r d) = Some r.
Proof.
  unfold get. simpl. apply find_insert_hit.
  - now apply hasKey_true.
  - intros x Hx. apply In_removeKey in Hx. now apply hasKey_false.
Qed.

Lemma get_storeRecord_other r d k :
  k <> id r -> get k (storeRecord r d) = get k d.
Proof.
  intros Hk. unfold get. simpl. rewrite find_insert_miss.
  - apply find_filter_keep. intros x Hx. apply hasKey_true in Hx.
    apply negb_true_iff, hasKey_false. congruence.
  - apply hasKey_false. congruence.
Qed.

Lemma get_delete_same k d : get k (delete k d) = None.
Proof. apply get_None. intros x Hx. now apply In_delete in Hx. Qed.

Lemma get_delete_other k k' d : k' <> k -> get k' (delete k d) = get k' d.
Proof.
  intros Hk. unfold get. simpl. apply find_filter_keep.
  intros x Hx. apply hasKey_true in Hx.
  apply negb_true_iff, hasKey_false. congruence.
Qed.

Lemma removeKey_absent k l :
  (forall x, In x l -> id x <> k) -> removeKey k l = l.
Proof.
  intros H. induction l as [|y l IH]; simpl; [reflexivity|].
  assert (E : hasKey k y = false) by (apply hasKey_false, H; now left).
  rewrite E. simpl. f_equal. apply IH. intros x Hx. apply H. now right.
Qed.

(** Deleting a key that is not there changes nothing; in particular a
    second deletion does not. *)
Lemma delete_absent k d : get k d = None -> delete k d = d.
Proof.
  intros H. destruct d as [l g]. unfold delete. simpl. f_equal.
  apply removeKey_absent. rewrite get_None in H. exact H.
Qed.

Lemma delete_delete k d : delete k (delete k d) = delete k d.
Proof. apply delete_absent, get_delete_same. Qed.

(** Reading through the index. *)
Lemma index_get_Some s d x :
  index_get s d = Some x -> In x (objects d) /\ studentId x = s.
Proof.
  unfold index_get. intros H. apply find_some in H.
  now rewrite hasStudentId_true in H.
Qed.

Lemma index_get_None s d :
  index_get s d = None <-> forall x, In x (objects d) -> studentId x <> s.
Proof.
  unfold index_get. rewrite find_none_iff.
  split; intros H x Hx; apply hasStudentId_false; now apply H.
Qed.

Lemma violatesUnique_false r d :
  violatesUnique r d = false <->
  forall x, In x (objects d) -> studentId x = studentId r -> id x = id r.
Proof.
  unfold violatesUnique. split.
  - intros H x Hx Hs.
    destruct (Z.eq_dec (id x) (id r)) as [E|N]; [assumption|].
    assert (T : existsb (fun x => hasStudentId (studentId r) x && negb (hasKey (id r) x))
                  (objects d) = true).
    { apply existsb_exists. exists x. split; [assumption|].
      apply andb_true_iff. split.
      - now apply hasStudentId_true.
      - now apply negb_true_iff, hasKey_false. }
    congruence.
  - intros H. apply not_true_is_false. intros T.
    apply existsb_exists in T. destruct T as [x [Hx T]].
    apply andb_true_iff in T. destruct T as [T1 T2].
    apply hasStudentId_true in T1. apply negb_true_iff, hasKey_false in T2.
    apply T2. now apply H.
Qed.

Lemma violatesUnique_true r d :
  violatesUnique r d = true <->
  exists x, In x (objects d) /\ studentId x = studentId r /\ id x <> id r.
Proof.
  unfold violatesUnique. rewrite existsb_exists.
  split; intros [x [Hx H]]; exists x; split; try assumption.
  - apply andb_true_iff in H. destruct H as [H1 H2].
    apply hasStudentId_true in H1. apply negb_true_iff, hasKey_false in H2. tauto.
  - apply andb_true_iff. destruct H as [H1 H2]. split.
    + now apply hasStudentId_true.
    + now apply negb_true_iff, hasKey_false.
Qed.

Lemma sorted_removeKey k l :
  StronglySorted keyLt l -> StronglySorted keyLt (removeKey k l).
Proof.
  induction 1 as [|y l Hs IH Hy]; simpl; [constructor|].
  destruct (negb (hasKey k y)); [|assumption].
  constructor; [assumption|].
  apply Forall_forall. intros x Hx. apply In_removeKey in Hx.
  rewrite Forall_forall in Hy. now apply Hy.
Qed.

Lemma sorted_insertByKey r l :
  StronglySorted keyLt l -> (forall x, In x l -> id x <> id r) ->
  StronglySorted keyLt (insertByKey r l).
Proof.
  induction 1 as [|y l Hs IH Hy]; intros Hne; simpl.
  - constructor; constructor.
  - rewrite Forall_forall in Hy. destruct (id r <? id y) eqn:E.
    + apply Z.ltb_lt in E. constructor.
      * constructor; [assumption | now apply Forall_forall].
      * apply Forall_forall. intros x [<-|Hx]; [exact E|].
        unfold keyLt in *. specialize (Hy x Hx). lia.
    + apply Z.ltb_ge in E. constructor.
      * apply IH. intros x Hx. apply Hne. now right.
      * apply Forall_forall. intros x Hx. apply In_insertByKey in Hx.
        destruct Hx as [->|Hx]; [|now apply Hy].
        assert (id y <> id r) by (apply Hne; now left).
        unfold keyLt. lia.
Qed.

Lemma sorted_key_unique l a b :
  StronglySorted keyLt l -> In a l -> In b l -> id a = id b -> a = b.
Proof.
  induction 1 as [|y l Hs IH Hy]; simpl; [tauto|].
  rewrite Forall_forall in Hy. unfold keyLt in Hy.
  intros [<-|Ha] [<-|Hb] E; try reflexivity.
  - specialize (Hy b Hb). lia.
  - specialize (Hy a Ha). lia.
  - now apply IH.
Qed.

(** The engine keeps its invariants. *)
Lemma wf_created : wf created.
Proof. split; simpl; [constructor | tauto | tauto]. Qed.

Lemma wf_storeRecord r d :
  wf d -> violatesUnique r d = false -> wf (storeRecord r d).
Proof.
  intros [Hs Hi Hk] Hu. rewrite violatesUnique_false in Hu. split.
  - simpl. apply sorted_insertByKey.
    + now apply sorted_removeKey.
    + intros x Hx. now apply In_removeKey in Hx.
  - intros a b Ha Hb E. apply In_storeRecord in Ha, Hb.
    destruct Ha as [->|[Ha Na]], Hb as [->|[Hb Nb]].
    + reflexivity.
    + symmetry. apply Hu; [assumption | now symmetry].
    + now apply Hu.
    + now apply Hi.
  - intros a Ha. apply In_storeRecord in Ha. simpl.
    destruct Ha as [->|[Ha _]]; [lia|]. specialize (Hk a Ha). lia.
Qed.

Lemma wf_add v d d' : wf d -> add v d = Committed d' -> wf d'.
Proof.
  unfold add. intros W.
  destruct (existsb _ _ || violatesUnique _ d) eqn:E; [discriminate|].
  intros H. injection H as <-. apply orb_false_iff in E.
  now apply wf_storeRecord.
Qed.

Lemma wf_put r d d' : wf d -> put r d = Committed d' -> wf d'.
Proof.
  unfold put. intros W. destruct (violatesUnique r d) eqn:E; [discriminate|].
  intros H. injection H as <-. now apply wf_storeRecord.
Qed.

Lemma wf_delete k d : wf d -> wf (delete k d).
Proof.
  intros [Hs Hi Hk]. split.
  - simpl. now apply sorted_removeKey.
  - intros a b Ha Hb. apply In_delete in Ha, Hb. apply Hi; tauto.
  - intros a Ha. apply In_delete in Ha. simpl. apply Hk. tauto.
Qed.

Theorem reachable_wf d : reachable d -> wf d.
Proof.
  induction 1 as [|d v d' _ IH H|d r d' _ IH H|d k _ IH].
  - exact wf_created.
  - eapply wf_add; eassumption.
  - eapply wf_put; eassumption.
  - now apply wf_delete.
Qed.

Lemma wf_key_unique d a b :
  wf d -> In a (objects d) -> In b (objects d) -> id a = id b -> a = b.
Proof. intros [Hs _ _]. now apply sorted_key_unique. Qed.

Lemma wf_get_In d x : wf d -> In x (objects d) -> get (id x) d = Some x.
Proof.
  intros W Hx. destruct (get (id x) d) as [y|] eqn:G.
  - apply get_Some in G. destruct G as [Hy E]. f_equal.
    eapply wf_key_unique; eassumption.
  - rewrite get_None in G. now elim (G x Hx).
Qed.

(** On a store as the engine keeps it, [add] is rejected exactly when the
    [studentId] is taken. *)
Lemma add_committed v d :
  wf d -> (forall x, In x (objects d) -> studentId x <> f_studentId v) ->
  add v d = Committed (storeRecord (withId (keyGenerator d) v) d).
Proof.
  intros W Hfree. unfold add.
  assert (E1 : existsb (hasKey (id (withId (keyGenerator d) v))) (objects d) = false).
  { apply not_true_is_false. intros T. apply existsb_exists in T.
    destruct T as [x [Hx T]]. apply hasKey_true in T. simpl in T.
    pose proof (wf_keygen _ W) as K. specialize (K x Hx). lia. }
  assert (E2 : violatesUnique (withId (keyGenerator d) v) d = false).
  { apply violatesUnique_false. intros x Hx Hs. now elim (Hfree x Hx). }
  now rewrite E1, E2.
Qed.

End StoreFacts.

(* ------------------------------------------------------------------ *)
(** * Facts about the handlers *)

(** Sample input is valid by computation. *)
Ltac valid_input := unfold Valid; simpl; repeat split; discriminate.

Section RenderingFacts.

Lemma shown_app rows1 rows2 :
  shown (rows1 ++ rows2) = (shown rows1 ++ shown rows2)%list.
Proof.
  induction rows1 as [|[data|text] rows1 IH]; simpl; [reflexivity| |assumption].
  now rewrite IH.
Qed.

(** The cursor loop collects the matching records in cursor order; the
    closing call adds at most a row of text. *)
Lemma cursorLoop_shown filterText filter cursor rows :
  shown (cursorLoop filterText filter cursor rows)
  = (shown rows ++ List.filter (matchesFilter filter) cursor)%list.
Proof.
  revert rows. induction cursor as [|data rest IH]; intros rows; simpl.
  - rewrite app_nil_r.
    destruct (Nat.eqb (List.length rows) 0 && negb (isEmpty filter)).
    + rewrite shown_app. simpl. now rewrite app_nil_r.
    + destruct (Nat.eqb (List.length rows) 0); [|reflexivity].
      rewrite shown_app. simpl. now rewrite app_nil_r.
  - rewrite IH. destruct (matchesFilter filter data); [|reflexivity].
    rewrite shown_app. simpl. now rewrite <- app_assoc.
Qed.

Lemma displayed_filter text st :
  displayed text st
  = List.filter (matchesFilter (toLowerCase text)) (openCursor (db st)).
Proof. unfold displayed, oninput, displayRecords. simpl. apply cursorLoop_shown. Qed.

Lemma Substring_empty s : Substring "" s.
Proof. now exists "", s. Qed.

Lemma matchesFilter_spec text r :
  matchesFilter (toLowerCase text) r = true <-> MatchesText text r.
Proof.
  unfold matchesFilter, MatchesText.
  rewrite !orb_true_iff, !includes_spec, isEmpty_true. split.
  - intros [[[E|H]|H]|H]; try tauto.
    left. rewrite E. apply Substring_empty.
  - tauto.
Qed.

Lemma filter_all {A} (p : A -> bool) (l : list A) :
  (forall x, In x l -> p x = true) -> List.filter p l = l.
Proof.
  induction l as [|y l IH]; intros H; simpl; [reflexivity|].
  rewrite (H y) by now left. f_equal. apply IH. intros x Hx. apply H. now right.
Qed.

End RenderingFacts.

Section ValidationFacts.

Lemma firstFalsy_None record :
  firstFalsy record = None <->
  Forall (fun kv => snd kv <> "") (entries record).
Proof.
  unfold firstFalsy. rewrite Forall_forall. split.
  - intros H kv Hkv. destruct (find _ _) as [y|] eqn:F; [discriminate|].
    apply (find_none _ _ F) in Hkv. now apply isEmpty_false.
  - intros H. destruct (find _ _) as [y|] eqn:F; [|reflexivity].
    apply find_some in F. destruct F as [Hy E].
    apply isEmpty_true in E. now elim (H y Hy).
Qed.

Lemma entries_nonempty record :
  Forall (fun kv => snd kv <> "") (entries record) <->
  f_studentId record <> "" /\ f_fullname record <> "" /\ f_email record <> ""
  /\ f_course record <> "" /\ f_yearLevel record <> "".
Proof.
  unfold entries. split.
  - intros H. repeat match goal with
      | H : Forall _ (_ :: _) |- _ => inversion H; clear H; subst
      end. simpl in *. tauto.
  - intros (H1 & H2 & H3 & H4 & H5). repeat constructor; assumption.
Qed.

Lemma find_first {A} (p : A -> bool) pre x post :
  Forall (fun y => p y = false) pre -> p x = true ->
  find p (pre ++ x :: post) = Some x.
Proof.
  induction 1 as [|y pre Hy _ IH]; intros Hx; simpl.
  - now rewrite Hx.
  - rewrite Hy. now apply IH.
Qed.

Lemma Valid_checks input :
  Valid input <->
  firstFalsy (recordOf input) = None
  /\ test emailRegex (f_email (recordOf input)) = true.
Proof.
  unfold Valid. rewrite firstFalsy_None, entries_nonempty. simpl. tauto.
Qed.

(** A submission that passes the checks, step by step. *)
Lemma onsubmit_valid readFails input st :
  Valid input ->
  onsubmit readFails input st =
  let record := recordOf input in
  let write st :=
    match recordId st with
    | Some k => updateRecord (withId k record) st
    | None => createRecord record st
    end in
  if checkNeeded (recordId st) (originalId st) (f_studentId record)
  then
    let st1 := emit (IndexGet (f_studentId record)) st in
    if isStudentIdUnique readFails (f_studentId record) (recordId st1) (db st1)
    then write st1
    else showMessage ("Student ID " ++ f_studentId record ++ " already exists.") error st1
  else write st.
Proof.
  intros V. apply Valid_checks in V. destruct V as [V1 V2].
  unfold onsubmit. now rewrite V1, V2.
Qed.

Lemma idIs_true excludeId x : idIs excludeId x = true <-> Some (id x) = excludeId.
Proof.
  destruct excludeId as [k|]; simpl.
  - rewrite Z.eqb_eq. split; congruence.
  - split; discriminate.
Qed.

Lemma isStudentIdUnique_free s excludeId d :
  (forall x, In x (objects d) -> studentId x <> s) ->
  isStudentIdUnique false s excludeId d = true.
Proof.
  intros H. unfold isStudentIdUnique, indexGetRequest.
  apply index_get_None in H. now rewrite H.
Qed.

Lemma isStudentIdUnique_false s excludeId d :
  wf d ->
  isStudentIdUnique false s excludeId d = false <->
  exists x, In x (objects d) /\ studentId x = s /\ Some (id x) <> excludeId.
Proof.
  intros W. unfold isStudentIdUnique, indexGetRequest.
  destruct (index_get s d) as [x0|] eqn:G.
  - apply index_get_Some in G. destruct G as [H0 S0].
    destruct (idIs excludeId x0) eqn:I.
    + apply idIs_true in I. split; [discriminate|].
      intros [x [Hx [Sx Nx]]]. elim Nx. rewrite <- I. f_equal.
      apply (wf_index _ W); congruence.
    + split; [|reflexivity]. intros _. exists x0. repeat split; try assumption.
      intros E. apply idIs_true in E. congruence.
  - rewrite index_get_None in G. split; [discriminate|].
    intros [x [Hx [Sx _]]]. now elim (G x Hx).
Qed.

Lemma isStudentIdUnique_failed s excludeId d :
  isStudentIdUnique true s excludeId d = false.
Proof. reflexivity. Qed.

End ValidationFacts.

Section StoreOfThePage.

Lemma add_inv v d d' :
  add v d = Committed d' ->
  d' = storeRecord (withId (keyGenerator d) v) d
  /\ violatesUnique (withId (keyGenerator d) v) d = false.
Proof.
  unfold add. destruct (existsb _ _ || violatesUnique _ d) eqn:E; [discriminate|].
  intros H. injection H as <-. apply orb_false_iff in E. tauto.
Qed.

Lemma put_inv r d d' :
  put r d = Committed d' ->
  d' = storeRecord r d /\ violatesUnique r d = false.
Proof.
  unfold put. destruct (violatesUnique r d) eqn:E; [discriminate|].
  intros H. injection H as <-. tauto.
Qed.

Lemma db_displayRecords arg st : db (displayRecords arg st) = db st.
Proof. destruct arg; reflexivity. Qed.

(** What [createRecord] and [updateRecord] leave in the store. *)
Lemma createRecord_db v st :
  db (createRecord v st) = db st
  \/ (db (createRecord v st) = storeRecord (withId (keyGenerator (db st)) v) (db st)
      /\ violatesUnique (withId (keyGenerator (db st)) v) (db st) = false).
Proof.
  unfold createRecord. simpl. destruct (add v (db st)) as [d'|e] eqn:A; simpl.
  - right. apply add_inv in A. destruct A as [-> U]. now split.
  - now left.
Qed.

Lemma updateRecord_db r st :
  db (updateRecord r st) = db st
  \/ (db (updateRecord r st) = storeRecord r (db st)
      /\ violatesUnique r (db st) = false).
Proof.
  unfold updateRecord. simpl. destruct (put r (db st)) as [d'|e] eqn:A; simpl.
  - right. apply put_inv in A. destruct A as [-> U]. now split.
  - now left.
Qed.

(** A submission leaves the store as it was, or stores one record built
    from valid input. *)
Lemma onsubmit_db readFails input st :
  db (onsubmit readFails input st) = db st
  \/ (Valid input /\
      exists k, db (onsubmit readFails input st)
                = storeRecord (withId k (recordOf input)) (db st)
                /\ violatesUnique (withId k (recordOf input)) (db st) = false).
Proof.
  destruct (firstFalsy (recordOf input)) as [key|] eqn:F.
  { left. unfold onsubmit. now rewrite F. }
  destruct (test emailRegex (f_email (recordOf input))) eqn:T.
  2:{ left. unfold onsubmit. now rewrite F, T. }
  assert (V : Valid input) by (apply Valid_checks; now split).
  rewrite (onsubmit_valid _ _ _ V). cbv zeta.
  assert (W : forall st1, db st1 = db st -> recordId st1 = recordId st ->
    db (match recordId st1 with
        | Some k => updateRecord (withId k (recordOf input)) st1
        | None => createRecord (recordOf input) st1
        end) = db st
    \/ (Valid input /\
        exists k, db (match recordId st1 with
                      | Some k => updateRecord (withId k (recordOf input)) st1
                      | None => createRecord (recordOf input) st1
                      end) = storeRecord (withId k (recordOf input)) (db st)
                  /\ violatesUnique (withId k (recordOf input)) (db st) = false)).
  { intros st1 E1 E2. destruct (recordId st1) as [k|].
    - destruct (updateRecord_db (withId k (recordOf input)) st1) as [H|[H U]];
        rewrite E1 in *; [now left|].
      right. split; [assumption|]. now exists k.
    - destruct (createRecord_db (recordOf input) st1) as [H|[H U]];
        rewrite E1 in *; [now left|].
      right. split; [assumption|]. now exists (keyGenerator (db st)). }
  destruct (checkNeeded _ _ _).
  - destruct (isStudentIdUnique _ _ _ _).
    + now apply W.
    + now left.
  - now apply W.
Qed.

Lemma handle_db a st :
  db (handle a st) = db st
  \/ (exists input k, Valid input
        /\ db (handle a st) = storeRecord (withId k (recordOf input)) (db st)
        /\ violatesUnique (withId k (recordOf input)) (db st) = false)
  \/ (exists k, db (handle a st) = delete k (db st)).
Proof.
  destruct a as [readFails input|k|k name confirmed| |value]; simpl.
  - destruct (onsubmit_db readFails input st) as [H|[V [k H]]].
    + now left.
    + right; left. now exists input, k.
  - left. unfold prepareUpdateForm. now destruct (get k (db st)).
  - destruct confirmed; simpl.
    + right; right. now exists k.
    + now left.
  - now left.
  - now left.
Qed.

(** The page never takes the store out of the engine's invariants. *)
Lemma wf_handle a st : wf (db st) -> wf (db (handle a st)).
Proof.
  intros W. destruct (handle_db a st) as [E|[(input & k & V & E & U)|[k E]]];
    rewrite E.
  - assumption.
  - now apply wf_storeRecord.
  - now apply wf_delete.
Qed.

Lemma wf_run actions st : wf (db st) -> wf (db (run actions st)).
Proof.
  revert st. induction actions as [|a actions IH]; intros st W; simpl.
  - assumption.
  - apply IH. now apply wf_handle.
Qed.

(** Every store the page gets to is one the engine can be brought to. *)
Lemma reachable_handle a st : reachable (db st) -> reachable (db (handle a st)).
Proof.
  intros R. destruct (handle_db a st) as [E|[(input & k & V & E & U)|[k E]]];
    rewrite E.
  - assumption.
  - apply (r_put (db st) (withId k (recordOf input))); [assumption|].
    unfold put. now rewrite U.
  - now apply r_delete.
Qed.

Lemma reachable_run actions st :
  reachable (db st) -> reachable (db (run actions st)).
Proof.
  revert st. induction actions as [|a actions IH]; intros st R; simpl.
  - assumption.
  - apply IH. now apply reachable_handle.
Qed.

Lemma wf_onsubmit readFails input st :
  wf (db st) -> wf (db (onsubmit readFails input st)).
Proof. apply (wf_handle (Submitted readFails input)). Qed.

Lemma wf_initDB d : wf d -> wf (db (initDB d)).
Proof. intros W. unfold initDB. now rewrite db_displayRecords. Qed.

Lemma wf_oneStudent : wf (db oneStudent).
Proof. apply wf_onsubmit, wf_initDB, wf_created. Qed.

Lemma wf_twoStudents : wf (db twoStudents).
Proof. apply wf_onsubmit, wf_oneStudent. Qed.

(** Valid input makes complete records, and only submissions store
    records. *)
Lemma Complete_recordOf input k : Valid input -> Complete (withId k (recordOf input)).
Proof. unfold Valid, Complete. simpl. tauto. Qed.

Lemma Complete_handle a st :
  (forall x, In x (objects (db st)) -> Complete x) ->
  forall x, In x (objects (db (handle a st))) -> Complete x.
Proof.
  intros H x. destruct (handle_db a st) as [E|[(input & k & V & E & U)|[k E]]];
    rewrite E.
  - apply H.
  - rewrite In_storeRecord. intros [->|[Hx _]].
    + now apply Complete_recordOf.
    + now apply H.
  - rewrite In_delete. intros [Hx _]. now apply H.
Qed.

Lemma Complete_run actions st :
  (forall x, In x (objects (db st)) -> Complete x) ->
  forall x, In x (objects (db (run actions st))) -> Complete x.
Proof.
  revert st. induction actions as [|a actions IH]; intros st H; simpl.
  - assumption.
  - apply IH. now apply Complete_handle.
Qed.

End StoreOfThePage.

Section SubmissionsThatWrite.

(** Creating: the index is read, the record is added under the key the
    generator holds, the form is reset and the table drawn again. *)
Lemma onsubmit_creates input st :
  wf (db st) -> recordId st = None -> Valid input ->
  (forall x, In x (objects (db st)) -> studentId x <> trim (f_studentId input)) ->
  onsubmit false input st =
  displayRecords NoArg
    (resetForm
       (showMessage "Student record added successfully!" success
          (setDb (storeRecord (withId (keyGenerator (db st)) (recordOf input)) (db st))
             (emit (StoreAdd (recordOf input))
                (emit (IndexGet (trim (f_studentId input))) st))))).
Proof.
  intros W N V Hfree. rewrite (onsubmit_valid _ _ _ V). cbv zeta.
  rewrite N. cbn [checkNeeded]. cbn [emit db recordId]. rewrite N.
  rewrite isStudentIdUnique_free by exact Hfree.
  unfold createRecord. cbn [emit db].
  rewrite add_committed by assumption. reflexivity.
Qed.

(** Updating with the [studentId] the form was filled with: no read at
    all. *)
Lemma onsubmit_updates_unchecked readFails input st k :
  recordId st = Some k -> originalId st = Some (trim (f_studentId input)) ->
  Valid input ->
  onsubmit readFails input st = updateRecord (withId k (recordOf input)) st.
Proof.
  intros N O V. rewrite (onsubmit_valid _ _ _ V). cbv zeta.
  rewrite N, O. cbn [checkNeeded differsFrom recordOf f_studentId].
  rewrite String.eqb_refl. cbn [negb]. now rewrite N.
Qed.

Lemma updateRecord_commits r st :
  violatesUnique r (db st) = false ->
  updateRecord r st =
  displayRecords NoArg
    (resetForm
       (showMessage ("Record for " ++ fullname r ++ " updated successfully!") success
          (setDb (storeRecord r (db st)) (emit (StorePut r) st)))).
Proof.
  intros U. unfold updateRecord, put. cbn [emit db]. now rewrite U.
Qed.

Lemma updateRecord_rejected r st :
  violatesUnique r (db st) = true ->
  updateRecord r st =
  showMessage "Failed to update record." error (emit (StorePut r) st).
Proof.
  intros U. unfold updateRecord, put. cbn [emit db]. now rewrite U.
Qed.

Lemma length_insertByKey r l :
  List.length (insertByKey r l) = S (List.length l).
Proof.
  induction l as [|y l IH]; simpl; [reflexivity|].
  destruct (id r <? id y); simpl; [reflexivity | now rewrite IH].
Qed.

Lemma deleteRecord_page k st :
  deleteRecord k st
  = mkPage (delete k (db st)) (recordId st) (originalId st) []
      (trace st ++
         [StoreDelete k; ShowMessage "Record deleted successfully!" success;
          Uncaught "TypeError: filterText.toLowerCase is not a function"]).
Proof.
  unfold deleteRecord.
  lazy beta iota zeta delta [displayRecords showMessage emit setDb setTableBody
                               db trace recordId originalId tableBody].
  now rewrite <- !app_assoc.
Qed.

End SubmissionsThatWrite.

Section Rejections.

Lemma skipn_length_app {A} (l l' : list A) : skipn (List.length l) (l ++ l') = l'.
Proof. induction l as [|x l IH]; simpl; [reflexivity | assumption]. Qed.

Lemma checkNeeded_true rid orig s :
  checkNeeded rid orig s = true <-> rid = None \/ orig <> Some s.
Proof.
  destruct rid as [k|]; simpl.
  - destruct orig as [o|]; simpl.
    + rewrite negb_true_iff, String.eqb_neq. split.
      * intros H. right. congruence.
      * intros [H|H]; [discriminate | congruence].
    + split; [intros _; right; discriminate | reflexivity].
  - split; [now left | reflexivity].
Qed.

Lemma onsubmit_empty_field readFails input st key :
  firstFalsy (recordOf input) = Some key ->
  onsubmit readFails input st
  = rejected st [] ("Please fill out the " ++ key ++ " field.").
Proof. intros F. unfold onsubmit. now rewrite F. Qed.

Lemma onsubmit_malformed_email readFails input st :
  firstFalsy (recordOf input) = None ->
  test emailRegex (trim (f_email input)) = false ->
  onsubmit readFails input st
  = rejected st [] "Please enter a valid email address.".
Proof.
  intros F T. unfold onsubmit. rewrite F. cbn [recordOf f_email]. now rewrite T.
Qed.

Lemma onsubmit_not_unique readFails input st :
  Valid input ->
  checkNeeded (recordId st) (originalId st) (trim (f_studentId input)) = true ->
  isStudentIdUnique readFails (trim (f_studentId input)) (recordId st) (db st) = false ->
  onsubmit readFails input st
  = rejected st [IndexGet (trim (f_studentId input))]
      ("Student ID " ++ trim (f_studentId input) ++ " already exists.").
Proof.
  intros V C U. rewrite (onsubmit_valid _ _ _ V). cbv zeta.
  cbn [recordOf f_studentId]. rewrite C. cbn [emit db recordId]. rewrite U.
  unfold rejected, showMessage, emit. simpl. now rewrite <- app_assoc.
Qed.

Lemma issued_rejected readFails input st reads message :
  onsubmit readFails input st = rejected st reads message ->
  issued readFails input st = (reads ++ [ShowMessage message error])%list.
Proof.
  intros E. unfold issued. rewrite E. simpl. apply skipn_length_app.
Qed.

(** A submission that gets as far as a write has passed the first two
    checks. *)
Lemma accepted_Valid readFails input st :
  accepted readFails input st = true -> Valid input.
Proof.
  unfold accepted. intros A. apply Valid_checks.
  destruct (firstFalsy (recordOf input)) as [key|] eqn:F.
  - rewrite (issued_rejected _ _ _ _ _ (onsubmit_empty_field readFails input st _ F)) in A.
    discriminate A.
  - split; [reflexivity|].
    destruct (test emailRegex (f_email (recordOf input))) eqn:T; [reflexivity|].
    rewrite (issued_rejected _ _ _ _ _ (onsubmit_malformed_email readFails input st F T)) in A.
    discriminate A.
Qed.

End Rejections.

(* ------------------------------------------------------------------ *)
(** * Further facts: the table *)

Section TableFacts.

Lemma cursorLoop_end filterText filter cursor rows :
  cursorLoop filterText filter cursor rows
  = cursorLoop filterText filter []
      (rows ++ map DataRow (List.filter (matchesFilter filter) cursor)).
Proof.
  revert rows. induction cursor as [|data rest IH]; intros rows.
  - cbn [List.filter map]. now rewrite app_nil_r.
  - cbn [cursorLoop List.filter]. rewrite IH.
    destruct (matchesFilter filter data); [|reflexivity].
    cbn [map]. now rewrite <- app_assoc.
Qed.

Lemma displayRecords_table filterText st :
  tableBody (displayRecords (Text filterText) st) = tableFor filterText (db st).
Proof.
  unfold displayRecords, tableFor, emptyNotice. cbn [setTableBody tableBody db].
  rewrite cursorLoop_end. cbn [app].
  destruct (List.filter _ _) as [|r rs]; cbn [map cursorLoop List.length Nat.eqb andb].
  - now destruct (isEmpty (toLowerCase filterText)).
  - reflexivity.
Qed.

Lemma sorted_filter (p : StudentRecord -> bool) l :
  StronglySorted keyLt l -> StronglySorted keyLt (List.filter p l).
Proof.
  induction 1 as [|y l Hs IH Hy]; simpl; [constructor|].
  destruct (p y); [|assumption].
  constructor; [assumption|].
  apply Forall_forall. intros x Hx. apply filter_In in Hx.
  rewrite Forall_forall in Hy. now apply Hy.
Qed.

(** The page that a committed write leaves. *)
Lemma committed_page st d' e message :
  displayRecords NoArg
    (resetForm (showMessage message success (setDb d' (emit e st))))
  = committed st d' [e; ShowMessage message success].
Proof.
  unfold committed.
  change (displayRecords NoArg) with (displayRecords (Text "")).
  set (st1 := resetForm _).
  assert (T : tableBody (displayRecords (Text "") st1) = tableFor "" d').
  { apply displayRecords_table. }
  unfold displayRecords in *. cbn [setTableBody tableBody db] in *.
  rewrite T. subst st1.
  lazy beta iota zeta delta [resetForm showMessage emit setForm setDb
                               db trace recordId originalId tableBody].
  now rewrite <- !app_assoc.
Qed.

Lemma shown_map_DataRow records : shown (map DataRow records) = records.
Proof. induction records as [|r rs IH]; cbn [map shown]; [reflexivity | now rewrite IH]. Qed.

Lemma shown_tableFor_all d : shown (tableFor "" d) = objects d.
Proof.
  unfold tableFor, openCursor. rewrite filter_all by reflexivity.
  destruct (objects d) as [|r rs]; [reflexivity|]. apply shown_map_DataRow.
Qed.

End TableFacts.

(* ------------------------------------------------------------------ *)
(** * Further facts: how a submission ends *)

Section SubmissionCases.

Lemma committed_emit st d' e events :
  committed (emit e st) d' events = committed st d' (e :: events).
Proof. unfold committed, emit. cbn [trace]. now rewrite <- app_assoc. Qed.

Lemma rejected_emit st e events message :
  rejected (emit e st) events message = rejected st (e :: events) message.
Proof.
  unfold rejected, emit. cbn [db recordId originalId tableBody trace].
  now rewrite <- app_assoc.
Qed.

Lemma createRecord_committed v st d' :
  add v (db st) = Committed d' ->
  createRecord v st
  = committed st d'
      [StoreAdd v; ShowMessage "Student record added successfully!" success].
Proof.
  intros A. unfold createRecord. cbn [emit db]. rewrite A. apply committed_page.
Qed.

Lemma createRecord_refused v st :
  add v (db st) = Aborted ConstraintError ->
  createRecord v st
  = rejected st [StoreAdd v] "Failed to add record. Student ID might already exist.".
Proof.
  intros A. unfold createRecord. cbn [emit db]. rewrite A.
  unfold rejected, showMessage, emit. cbn [db recordId originalId tableBody trace].
  now rewrite <- app_assoc.
Qed.

Lemma updateRecord_committed r st :
  violatesUnique r (db st) = false ->
  updateRecord r st
  = committed st (storeRecord r (db st))
      [StorePut r;
       ShowMessage ("Record for " ++ fullname r ++ " updated successfully!") success].
Proof.
  intros U. rewrite (updateRecord_commits _ _ U). apply committed_page.
Qed.

Lemma updateRecord_refused r st :
  violatesUnique r (db st) = true ->
  updateRecord r st = rejected st [StorePut r] "Failed to update record.".
Proof.
  intros U. rewrite (updateRecord_rejected _ _ U).
  unfold rejected, showMessage, emit. cbn [db recordId originalId tableBody trace].
  now rewrite <- app_assoc.
Qed.

(** The write of a submission: committed, or refused by the engine. *)
Lemma write_cases record st :
  (exists k events,
     match recordId st with
     | Some k => updateRecord (withId k record) st
     | None => createRecord record st
     end = committed st (storeRecord (withId k record) (db st)) events
     /\ Forall (fun e => isWriteFailure e = false) events
     /\ violatesUnique (withId k record) (db st) = false
     /\ (recordId st = Some k
         \/ (recordId st = None /\ k = keyGenerator (db st))))
  \/ (exists events message,
        match recordId st with
        | Some k => updateRecord (withId k record) st
        | None => createRecord record st
        end = rejected st events message
        /\ isWriteFailure (ShowMessage message error) = true
        /\ match recordId st with
           | Some k => violatesUnique (withId k record) (db st) = true
           | None => add record (db st) = Aborted ConstraintError
           end).
Proof.
  destruct (recordId st) as [k|] eqn:N.
  - destruct (violatesUnique (withId k record) (db st)) eqn:U.
    + right. eexists. eexists. split; [now apply updateRecord_refused|].
      split; reflexivity.
    + left. exists k. eexists. split; [now apply updateRecord_committed|].
      split; [repeat constructor|]. split; [assumption | now left].
  - destruct (add record (db st)) as [d'|[]] eqn:A.
    + left. exists (keyGenerator (db st)). eexists.
      rewrite (createRecord_committed _ _ _ A).
      apply add_inv in A. destruct A as [-> U].
      split; [reflexivity|].
      split; [repeat constructor|]. split; [assumption | now right].
    + right. eexists. eexists. split; [now apply createRecord_refused|].
      split; reflexivity.
Qed.

(** A submission is turned down by a check, or its write is committed,
    or its write is refused by the engine. *)
Lemma onsubmit_cases readFails input st :
  (exists reads message,
     onsubmit readFails input st = rejected st reads message
     /\ isWriteFailure (ShowMessage message error) = false
     /\ Forall (fun e => isWriteFailure e = false) reads)
  \/ (Valid input /\ exists k events,
        onsubmit readFails input st
        = committed st (storeRecord (withId k (recordOf input)) (db st)) events
        /\ Forall (fun e => isWriteFailure e = false) events
        /\ violatesUnique (withId k (recordOf input)) (db st) = false
        /\ (recordId st = Some k
            \/ (recordId st = None /\ k = keyGenerator (db st))))
  \/ (Valid input /\ exists events message,
        onsubmit readFails input st = rejected st events message
        /\ isWriteFailure (ShowMessage message error) = true
        /\ (checkNeeded (recordId st) (originalId st) (trim (f_studentId input)) = false
            \/ isStudentIdUnique readFails (trim (f_studentId input))
                 (recordId st) (db st) = true)
        /\ match recordId st with
           | Some k => violatesUnique (withId k (recordOf input)) (db st) = true
           | None => add (recordOf input) (db st) = Aborted ConstraintError
           end).
Proof.
  destruct (firstFalsy (recordOf input)) as [key|] eqn:F.
  { left. eexists. eexists. split; [exact (onsubmit_empty_field _ _ _ _ F)|].
    split; [reflexivity | constructor]. }
  destruct (test emailRegex (f_email (recordOf input))) eqn:T.
  2:{ left. eexists. eexists. split; [exact (onsubmit_malformed_email _ _ _ F T)|].
      split; [reflexivity | constructor]. }
  assert (V : Valid input) by (apply Valid_checks; now split).
  destruct (checkNeeded (recordId st) (originalId st) (trim (f_studentId input))) eqn:C.
  - destruct (isStudentIdUnique readFails (trim (f_studentId input))
                (recordId st) (db st)) eqn:I.
    + rewrite (onsubmit_valid _ _ _ V). cbv zeta. cbn [recordOf f_studentId].
      rewrite C. cbn [emit db recordId]. rewrite I.
      change (mkPage (db st) (recordId st) (originalId st) (tableBody st)
                (trace st ++ [IndexGet (trim (f_studentId input))]))
        with (emit (IndexGet (trim (f_studentId input))) st).
      set (st1 := emit (IndexGet (trim (f_studentId input))) st).
      destruct (write_cases (recordOf input) st1)
        as [(k & events & E & Fa & U & M)|(events & message & E & Fa & M)];
        cbn [st1 emit recordId db] in *.
      * right; left. split; [assumption|]. exists k. eexists.
        split; [rewrite E; apply committed_emit|].
        split; [constructor; [reflexivity | assumption]|]. now split.
      * right; right. split; [assumption|]. eexists. eexists.
        split; [rewrite E; apply rejected_emit|].
        split; [assumption|]. split; [now right | assumption].
    + left. eexists. eexists. split; [exact (onsubmit_not_unique _ _ _ V C I)|].
      split; [reflexivity | repeat constructor].
  - rewrite (onsubmit_valid _ _ _ V). cbv zeta. cbn [recordOf f_studentId].
    rewrite C.
    destruct (write_cases (recordOf input) st)
      as [(k & events & E & Fa & U & M)|(events & message & E & Fa & M)].
    + right; left. split; [assumption|]. exists k, events. now repeat split.
    + right; right. split; [assumption|]. exists events, message.
      split; [assumption|]. split; [assumption|]. split; [now left | assumption].
Qed.

End SubmissionCases.

(* ------------------------------------------------------------------ *)
(** * Further facts: what the page keeps true *)

Section PageInvariant.







End PageInvariant.

(* ------------------------------------------------------------------ *)
(** * Further facts: trimming twice, stored records, keys *)

Section TrimTwice.

Lemma trimEnd_keeps_head c s :
  isWhiteSpace c = false -> exists t, trimEnd (String c s) = String c t.
Proof.
  intros H. cbn [trimEnd]. destruct (trimEnd s) as [|b t].
  - rewrite H. now exists "".
  - now exists (String b t).
Qed.

Lemma trimEnd_twice s : trimEnd (trimEnd s) = trimEnd s.
Proof.
  induction s as [|c s IH]; [reflexivity|].
  cbn [trimEnd]. destruct (trimEnd s) as [|b t] eqn:E.
  - destruct (isWhiteSpace c) eqn:H; [reflexivity|].
    cbn [trimEnd]. now rewrite H.
  - cbn [trimEnd] in *. now rewrite IH.
Qed.

Lemma trim_twice s : trim (trim s) = trim s.
Proof.
  unfold trim. destruct (trimStart s) as [|c t] eqn:E; [reflexivity|].
  apply trimStart_head in E.
  destruct (trimEnd_keeps_head c t E) as [u U]. rewrite U.
  cbn [trimStart]. rewrite E, <- U. apply trimEnd_twice.
Qed.

End TrimTwice.

Section StoredRecords.

Variable P : StudentRecord -> Prop.
Hypothesis P_submitted :
  forall input k, Valid input -> P (withId k (recordOf input)).

Lemma stored_handle a st :
  (forall x, In x (objects (db st)) -> P x) ->
  forall x, In x (objects (db (handle a st))) -> P x.
Proof.
  intros H x. destruct (handle_db a st) as [E|[(input & k & V & E & U)|[k E]]];
    rewrite E.
  - apply H.
  - rewrite In_storeRecord. intros [->|[Hx _]]; [now apply P_submitted | now apply H].
  - rewrite In_delete. intros [Hx _]. now apply H.
Qed.

Lemma stored_run actions st :
  (forall x, In x (objects (db st)) -> P x) ->
  forall x, In x (objects (db (run actions st))) -> P x.
Proof.
  revert st. induction actions as [|a actions IH]; intros st H; cbn [run fold_left].
  - assumption.
  - apply IH. now apply stored_handle.
Qed.

End StoredRecords.

Section Keys.

Lemma keyGenerator_handle a st :
  keyGenerator (db st) <= keyGenerator (db (handle a st)).
Proof.
  destruct (handle_db a st) as [E|[(input & k & V & E & U)|[k E]]]; rewrite E.
  - lia.
  - cbn [storeRecord keyGenerator]. lia.
  - cbn [delete keyGenerator]. lia.
Qed.

Lemma keyGenerator_run actions st :
  keyGenerator (db st) <= keyGenerator (db (run actions st)).
Proof.
  revert st. induction actions as [|a actions IH]; intros st; cbn [run fold_left].
  - lia.
  - specialize (IH (handle a st)). pose proof (keyGenerator_handle a st). 
    unfold run in IH. lia.
Qed.

Lemma removeKey_insertByKey r l :
  removeKey (id r) (insertByKey r l) = removeKey (id r) l.
Proof.
  assert (R : hasKey (id r) r = true) by now apply hasKey_true.
  induction l as [|y l IH]; cbn [insertByKey].
  - cbn [removeKey List.filter]. now rewrite R.
  - destruct (id r <? id y).
    + unfold removeKey at 1. cbn [List.filter]. now rewrite R.
    + unfold removeKey in *. cbn [List.filter]. rewrite IH. reflexivity.
Qed.

(** Deleting the key of a record just stored at a key that was free
    gives the records back. *)
Lemma delete_storeRecord_fresh r d :
  get (id r) d = None ->
  objects (delete (id r) (storeRecord r d)) = objects d.
Proof.
  intros G. cbn [delete storeRecord objects].
  rewrite removeKey_insertByKey.
  rewrite get_None in G.
  now rewrite !removeKey_absent by (try exact G; intros x Hx; apply In_removeKey in Hx; tauto).
Qed.

End Keys.

(* ------------------------------------------------------------------ *)
(** * The uniqueness validator *)

(** C1.  On a store as the engine keeps it, and when the index lookup
    succeeds: every stored record is unique against itself; the check
    answers [false] exactly when some record with that [studentId] has an
    id other than [excludeId], and [true] otherwise. *)
Theorem isStudentIdUnique_decides (d : ObjectStore) :
  wf d ->
  (forall R, In R (objects d) ->
     isStudentIdUnique false (studentId R) (Some (id R)) d = true)
  /\ (forall S excludeId,
        isStudentIdUnique false S excludeId d = false <->
        exists x, In x (objects d) /\ studentId x = S /\ Some (id x) <> excludeId)
  /\ (forall S excludeId,
        isStudentIdUnique false S excludeId d = true <->
        ~ exists x, In x (objects d) /\ studentId x = S /\ Some (id x) <> excludeId).
Proof.
  intros W.
  assert (F := fun S e => isStudentIdUnique_false S e d W).
  assert (T : forall S excludeId,
        isStudentIdUnique false S excludeId d = true <->
        ~ exists x, In x (objects d) /\ studentId x = S /\ Some (id x) <> excludeId).
  { intros S e. rewrite <- F. now destruct (isStudentIdUnique false S e d). }
  split; [|split]; [|exact F|exact T].
  intros R HR. apply T. intros [x [Hx [Sx Nx]]]. apply Nx. f_equal.
  now apply (wf_index _ W).
Qed.

Lemma isStudentIdUnique_decides_witness :
  wf (db twoStudents)
  /\ ((forall R, In R (objects (db twoStudents)) ->
        isStudentIdUnique false (studentId R) (Some (id R)) (db twoStudents) = true)
      /\ (forall S excludeId,
            isStudentIdUnique false S excludeId (db twoStudents) = false <->
            exists x, In x (objects (db twoStudents))
                      /\ studentId x = S /\ Some (id x) <> excludeId)
      /\ (forall S excludeId,
            isStudentIdUnique false S excludeId (db twoStudents) = true <->
            ~ exists x, In x (objects (db twoStudents))
                        /\ studentId x = S /\ Some (id x) <> excludeId)).
Proof.
  split; [exact wf_twoStudents|].
  exact (isStudentIdUnique_decides (db twoStudents) wf_twoStudents).
Defined.

(** The three answers on the store of two students. *)
Example isStudentIdUnique_samples :
  isStudentIdUnique false "S1" (Some 1) (db twoStudents) = true
  /\ isStudentIdUnique false "S1" (Some 2) (db twoStudents) = false
  /\ isStudentIdUnique false "S1" None (db twoStudents) = false
  /\ isStudentIdUnique false "S3" None (db twoStudents) = true.
Proof. repeat split; reflexivity. Qed.

(* ------------------------------------------------------------------ *)
(** * The filter *)

(** C3.  With an empty text the table shows every stored record; with any
    text it shows exactly the records in which the lower-cased text occurs
    in the lower-cased [fullname], [studentId] or [course], in the order
    the cursor yields them. *)
Theorem displayed_is_filter (text : string) (st : Page) :
  displayed "" st = openCursor (db st)
  /\ exists keep : StudentRecord -> bool,
       (forall r, keep r = true <-> MatchesText text r)
       /\ displayed text st = List.filter keep (openCursor (db st)).
Proof.
  split.
  - rewrite displayed_filter. apply filter_all. reflexivity.
  - exists (matchesFilter (toLowerCase text)). split.
    + intros r. apply matchesFilter_spec.
    + apply displayed_filter.
Qed.

(** Searching the store of two students for "bsit" finds the one whose
    course is "BSIT". *)
Example displayed_bsit :
  map id (displayed "bsit" twoStudents) = [1]
  /\ map id (displayed "" twoStudents) = [1; 2]
  /\ map id (displayed "S" twoStudents) = [1; 2]
  /\ map id (displayed "cruz" twoStudents) = [2].
Proof. repeat split; reflexivity. Qed.

(* ------------------------------------------------------------------ *)
(** * Writing and reading back *)

(** C7 does not hold for every record: a [put] of a record whose
    [studentId] another record carries is rejected by the unique index,
    and reading the id back does not give the record. *)
Lemma put_then_get_counterexample :
  wf (db oneStudent)
  /\ get (id bobAsS1) (db (updateRecord bobAsS1 oneStudent)) <> Some bobAsS1.
Proof. split; [exact wf_oneStudent | discriminate]. Qed.

(** C7, amended.  When no record with another id carries the [studentId]
    of the record, [put] followed by [get] of its id gives the record as
    written, whether or not the id was there before; records at other ids
    stay as they were. *)
Theorem put_then_get (r : StudentRecord) (st : Page) :
  (forall x, In x (objects (db st)) -> studentId x = studentId r -> id x = id r) ->
  get (id r) (db (updateRecord r st)) = Some r
  /\ forall k, k <> id r -> get k (db (updateRecord r st)) = get k (db st).
Proof.
  intros H. apply violatesUnique_false in H.
  rewrite (updateRecord_commits _ _ H), db_displayRecords. cbn [resetForm showMessage emit setForm setDb db].
  split.
  - apply get_storeRecord_same.
  - intros k Hk. now apply get_storeRecord_other.
Qed.

Lemma put_then_get_witness :
  ((forall x, In x (objects (db oneStudent)) ->
      studentId x = studentId annRenamed -> id x = id annRenamed)
   /\ get (id annRenamed) (db oneStudent) <> None
   /\ get (id annRenamed) (db (updateRecord annRenamed oneStudent)) = Some annRenamed)
  /\ ((forall x, In x (objects (db oneStudent)) ->
         studentId x = studentId caraDiaz -> id x = id caraDiaz)
      /\ get (id caraDiaz) (db oneStudent) = None
      /\ get (id caraDiaz) (db (updateRecord caraDiaz oneStudent)) = Some caraDiaz).
Proof.
  assert (A : forall x, In x (objects (db oneStudent)) ->
                studentId x = studentId annRenamed -> id x = id annRenamed).
  { intros x [<-|[]] _. reflexivity. }
  assert (C : forall x, In x (objects (db oneStudent)) ->
                studentId x = studentId caraDiaz -> id x = id caraDiaz).
  { intros x [<-|[]] E. discriminate E. }
  split; (split; [assumption|split]).
  - discriminate.
  - exact (proj1 (put_then_get annRenamed oneStudent A)).
  - reflexivity.
  - exact (proj1 (put_then_get caraDiaz oneStudent C)).
Defined.

(** What the rejected [put] leaves behind. *)
Lemma put_rejected (r : StudentRecord) (st : Page) :
  (exists x, In x (objects (db st)) /\ studentId x = studentId r /\ id x <> id r) ->
  updateRecord r st
  = mkPage (db st) (recordId st) (originalId st) (tableBody st)
      (trace st ++ [StorePut r; ShowMessage "Failed to update record." error]).
Proof.
  intros H. apply violatesUnique_true in H.
  rewrite (updateRecord_rejected _ _ H). unfold showMessage, emit. simpl.
  now rewrite <- app_assoc.
Qed.

(* ------------------------------------------------------------------ *)
(** * Deleting *)

(** C8.  What [deleteRecord] does when called twice in sequence.  The
    store does its part: each call issues the delete request and is
    answered with success, the second leaves the store as the first made
    it, and no record with that id remains.  But neither call ends
    without an error: [transaction.oncomplete = displayRecords] hands
    the completion event to [displayRecords] as its filter text, so each
    call, the first like the second, ends in an uncaught [TypeError];
    [createRecord] and [updateRecord] wrap the call and do not. *)
Theorem deleteRecord_twice (k : Z) (st : Page) :
  let st1 := deleteRecord k st in
  let st2 := deleteRecord k st1 in
  let said :=
    [StoreDelete k; ShowMessage "Record deleted successfully!" success;
     Uncaught "TypeError: filterText.toLowerCase is not a function"] in
  trace st1 = (trace st ++ said)%list
  /\ trace st2 = (trace st1 ++ said)%list
  /\ (forall message, ~ In (ShowMessage message error) said)
  /\ db st2 = db st1
  /\ get k (db st1) = None
  /\ get k (db st2) = None
  /\ forall k', k' <> k -> get k' (db st2) = get k' (db st).
Proof.
  cbv zeta. rewrite !deleteRecord_page. cbn [db trace].
  split; [reflexivity|]. split; [reflexivity|].
  split.
  { intros message [H|[H|[H|[]]]]; discriminate H. }
  rewrite delete_delete.
  split; [reflexivity|]. split; [apply get_delete_same|].
  split; [apply get_delete_same|].
  intros k' Hk. now apply get_delete_other.
Qed.

(** Deleting id 1 twice from the store of two students. *)
Example deleteRecord_twice_sample :
  map id (objects (db (deleteRecord 1 twoStudents))) = [2]
  /\ map id (objects (db (deleteRecord 1 (deleteRecord 1 twoStudents)))) = [2]
  /\ map id (objects (db (deleteRecord 9 twoStudents))) = [1; 2].
Proof. repeat split; reflexivity. Qed.

(* ------------------------------------------------------------------ *)
(** * A failing index lookup *)

(** C9.  When the index lookup ends in an error the check answers
    [false], whatever the store holds; a valid submission that needs the
    check is then turned down with the message of a duplicate
    [studentId], and nothing is written. *)
Theorem lookup_error_reads_as_duplicate (input : Fields) (st : Page) :
  Valid input ->
  checkNeeded (recordId st) (originalId st) (trim (f_studentId input)) = true ->
  (forall excludeId d,
     isStudentIdUnique true (trim (f_studentId input)) excludeId d = false)
  /\ onsubmit true input st
     = rejected st [IndexGet (trim (f_studentId input))]
         ("Student ID " ++ trim (f_studentId input) ++ " already exists.").
Proof.
  intros V C. split; [reflexivity|].
  rewrite (onsubmit_valid _ _ _ V). cbv zeta.
  cbn [recordOf f_studentId]. rewrite C.
  rewrite isStudentIdUnique_failed.
  unfold rejected, showMessage, emit. simpl. now rewrite <- app_assoc.
Qed.

Lemma lookup_error_reads_as_duplicate_witness :
  (Valid bobCruz
   /\ checkNeeded (recordId oneStudent) (originalId oneStudent)
        (trim (f_studentId bobCruz)) = true)
  /\ ((forall excludeId d,
         isStudentIdUnique true (trim (f_studentId bobCruz)) excludeId d = false)
      /\ onsubmit true bobCruz oneStudent
         = rejected oneStudent [IndexGet (trim (f_studentId bobCruz))]
             ("Student ID " ++ trim (f_studentId bobCruz) ++ " already exists.")).
Proof.
  assert (V : Valid bobCruz).
  { valid_input. }
  assert (C : checkNeeded (recordId oneStudent) (originalId oneStudent)
                (trim (f_studentId bobCruz)) = true) by reflexivity.
  split; [now split|].
  exact (lookup_error_reads_as_duplicate bobCruz oneStudent V C).
Defined.

(** With the lookup working, the same submission is accepted: S2 is not
    taken. *)
Example lookup_works_sample :
  map studentId (objects (db (onsubmit false bobCruz oneStudent))) = ["S1"; "S2"]
  /\ objects (db (onsubmit true bobCruz oneStudent)) = objects (db oneStudent).
Proof. split; reflexivity. Qed.

(* ------------------------------------------------------------------ *)
(** * Letter case *)

(** C10.  The check compares [studentId]s exactly.  When the store holds
    a record whose [studentId] equals the submitted one up to letter case
    only, and none that carries it exactly, the check answers [true] and
    the submission creates a second record beside the first; yet
    searching for the submitted [studentId] shows the first record. *)
Theorem uniqueness_is_case_sensitive (st : Page) (r : StudentRecord)
  (input : Fields) (excludeId : option Z) :
  wf (db st) -> recordId st = None -> Valid input ->
  In r (objects (db st)) ->
  toLowerCase (trim (f_studentId input)) = toLowerCase (studentId r) ->
  (forall x, In x (objects (db st)) -> studentId x <> trim (f_studentId input)) ->
  isStudentIdUnique false (trim (f_studentId input)) excludeId (db st) = true
  /\ In r (objects (db (onsubmit false input st)))
  /\ (exists r', In r' (objects (db (onsubmit false input st)))
                 /\ studentId r' = trim (f_studentId input) /\ id r' <> id r)
  /\ In r (displayed (trim (f_studentId input)) st).
Proof.
  intros W N V Hr Hlow Hfree.
  assert (K : id r < keyGenerator (db st)) by now apply (wf_keygen _ W).
  split; [now apply isStudentIdUnique_free|].
  rewrite (onsubmit_creates _ _ W N V Hfree), db_displayRecords.
  cbn [resetForm showMessage emit setForm setDb db].
  split; [|split].
  - apply In_storeRecord. right. split; [assumption|]. simpl. lia.
  - exists (withId (keyGenerator (db st)) (recordOf input)). split; [|split].
    + apply In_storeRecord. now left.
    + reflexivity.
    + simpl. lia.
  - rewrite displayed_filter. apply filter_In. split; [assumption|].
    unfold matchesFilter. rewrite Hlow, includes_refl.
    now rewrite orb_true_r.
Qed.

Lemma uniqueness_is_case_sensitive_witness :
  (wf (db oneStudent) /\ recordId oneStudent = None /\ Valid annLower
   /\ In (withId 1 (recordOf annLee)) (objects (db oneStudent))
   /\ toLowerCase (trim (f_studentId annLower))
      = toLowerCase (studentId (withId 1 (recordOf annLee)))
   /\ (forall x, In x (objects (db oneStudent)) ->
         studentId x <> trim (f_studentId annLower)))
  /\ (isStudentIdUnique false (trim (f_studentId annLower)) None (db oneStudent) = true
      /\ In (withId 1 (recordOf annLee)) (objects (db (onsubmit false annLower oneStudent)))
      /\ (exists r', In r' (objects (db (onsubmit false annLower oneStudent)))
                     /\ studentId r' = trim (f_studentId annLower)
                     /\ id r' <> id (withId 1 (recordOf annLee)))
      /\ In (withId 1 (recordOf annLee)) (displayed (trim (f_studentId annLower)) oneStudent)).
Proof.
  assert (V : Valid annLower).
  { valid_input. }
  assert (I : In (withId 1 (recordOf annLee)) (objects (db oneStudent))).
  { left. reflexivity. }
  assert (F : forall x, In x (objects (db oneStudent)) ->
                studentId x <> trim (f_studentId annLower)).
  { intros x [<-|[]]. discriminate. }
  split.
  - split; [exact wf_oneStudent|]. split; [reflexivity|]. split; [exact V|].
    split; [exact I|]. split; [reflexivity | exact F].
  - exact (uniqueness_is_case_sensitive oneStudent (withId 1 (recordOf annLee))
             annLower None wf_oneStudent eq_refl V I eq_refl F).
Defined.

(** Both spellings side by side. *)
Example uniqueness_is_case_sensitive_sample :
  map studentId (objects (db (onsubmit false annLower oneStudent))) = ["S1"; "s1"].
Proof. reflexivity. Qed.

(* ------------------------------------------------------------------ *)
(** * Submissions that are turned down *)

(** C4.  A submission that fails validation (an empty field, then a
    malformed address, then a [studentId] carried by another record, in
    that order) ends with one error message that names the field or the
    reason; by then it has at most read the index, and the page, its
    store included, is as before but for the trace. *)
Theorem validation_failure_changes_nothing (readFails : bool) (input : Fields)
  (st : Page) (reads : list Event) (message : string) :
  wf (db st) ->
  ValidationFailure input st reads message ->
  onsubmit readFails input st = rejected st reads message
  /\ db (onsubmit readFails input st) = db st
  /\ existsb isWrite (issued readFails input st) = false.
Proof.
  intros W VF.
  assert (E : onsubmit readFails input st = rejected st reads message).
  { destruct VF as [pre key post He Hpre | Hall Hno | x Hall Hm Hc Hx Hs Hn].
    - apply onsubmit_empty_field. unfold firstFalsy. rewrite He.
      rewrite find_first with (x := (key, "")); [reflexivity| |reflexivity].
      eapply Forall_impl; [|exact Hpre]. intros kv. apply isEmpty_false.
    - apply onsubmit_malformed_email.
      + now apply firstFalsy_None.
      + apply not_true_is_false. intros T. apply Hno. now apply test_spec.
    - assert (V : Valid input).
      { apply Valid_checks. split; [now apply firstFalsy_None | now apply test_spec]. }
      apply onsubmit_not_unique; [assumption | now apply checkNeeded_true |].
      destruct readFails; [reflexivity|].
      apply isStudentIdUnique_false; [assumption|]. now exists x. }
  split; [exact E|]. split.
  - now rewrite E.
  - rewrite (issued_rejected _ _ _ _ _ E).
    destruct VF; reflexivity.
Qed.

Lemma validation_failure_changes_nothing_witness :
  (wf (db oneStudent)
   /\ ValidationFailure noName oneStudent []
        "Please fill out the fullname field."
   /\ ValidationFailure badEmail oneStudent []
        "Please enter a valid email address."
   /\ ValidationFailure takenId oneStudent [IndexGet "S1"]
        "Student ID S1 already exists.")
  /\ (onsubmit false noName oneStudent
      = rejected oneStudent [] "Please fill out the fullname field."
      /\ onsubmit false badEmail oneStudent
         = rejected oneStudent [] "Please enter a valid email address."
      /\ onsubmit false takenId oneStudent
         = rejected oneStudent [IndexGet "S1"] "Student ID S1 already exists.").
Proof.
  assert (A : ValidationFailure noName oneStudent []
                "Please fill out the fullname field.").
  { apply (EmptyField noName oneStudent [("studentId", "S3")] "fullname"
             [("email", "not an address"); ("course", "BSIT"); ("yearLevel", "1")]).
    - reflexivity.
    - repeat constructor. discriminate. }
  assert (B : ValidationFailure badEmail oneStudent []
                "Please enter a valid email address.").
  { apply MalformedEmail.
    - repeat constructor; discriminate.
    - intros M. apply test_spec in M. discriminate M. }
  assert (C : ValidationFailure takenId oneStudent [IndexGet "S1"]
                "Student ID S1 already exists.").
  { apply (DuplicateStudentId takenId oneStudent (withId 1 (recordOf annLee))).
    - repeat constructor; discriminate.
    - apply test_spec. reflexivity.
    - now left.
    - now left.
    - reflexivity.
    - discriminate. }
  split; [split; [exact wf_oneStudent | now split]|].
  split; [|split].
  - exact (proj1 (validation_failure_changes_nothing false _ _ _ _ wf_oneStudent A)).
  - exact (proj1 (validation_failure_changes_nothing false _ _ _ _ wf_oneStudent B)).
  - exact (proj1 (validation_failure_changes_nothing false _ _ _ _ wf_oneStudent C)).
Defined.

(* ------------------------------------------------------------------ *)
(** * Which fields must be there *)

(** C5 does not hold for [course] and [yearLevel]: they are taken as
    selected, without trimming, so a course that is a single space is
    accepted. *)
Lemma presence_after_trimming_counterexample :
  accepted false annBlankCourse (initDB created) = true
  /\ trim (f_course annBlankCourse) = ""
  /\ ~ NonEmptyTrimmed annBlankCourse.
Proof.
  split; [reflexivity|]. split; [reflexivity|].
  intros (_ & _ & _ & H & _). now apply H.
Qed.

(** C5, amended.  A submission gets as far as a write only if [studentId],
    [fullname] and [email] are non-empty after trimming and [course] and
    [yearLevel] are non-empty as selected; so a submission keeps every
    stored record complete, and every record of a store that started
    empty has its five fields present and non-empty. *)
Theorem accepted_only_when_present (readFails : bool) (input : Fields) (st : Page) :
  (accepted readFails input st = true ->
     trim (f_studentId input) <> ""
     /\ trim (f_fullname input) <> ""
     /\ trim (f_email input) <> ""
     /\ f_course input <> ""
     /\ f_yearLevel input <> "")
  /\ ((forall x, In x (objects (db st)) -> Complete x) ->
      forall x, In x (objects (db (onsubmit readFails input st))) -> Complete x)
  /\ (forall actions x,
        In x (objects (db (run actions (initDB created)))) -> Complete x).
Proof.
  split; [|split].
  - intros A. apply accepted_Valid in A. unfold Valid in A. tauto.
  - apply (Complete_handle (Submitted readFails input)).
  - intros actions. apply Complete_run. intros x [].
Qed.

Lemma accepted_only_when_present_witness :
  accepted false annLee (initDB created) = true
  /\ (trim (f_studentId annLee) <> ""
      /\ trim (f_fullname annLee) <> ""
      /\ trim (f_email annLee) <> ""
      /\ f_course annLee <> ""
      /\ f_yearLevel annLee <> "")
  /\ (forall x,
        In x (objects (db (run [Submitted false annLee; Submitted false bobCruz]
                             (initDB created)))) -> Complete x).
Proof.
  split; [reflexivity|]. split.
  - exact (proj1 (accepted_only_when_present false annLee (initDB created)) eq_refl).
  - exact (proj2 (proj2 (accepted_only_when_present false annLee (initDB created)))
             [Submitted false annLee; Submitted false bobCruz]).
Defined.

(* ------------------------------------------------------------------ *)
(** * Creating *)

(** C2 does not hold for [course] and [yearLevel]: the stored [course]
    is the value as selected, not its trimmed form. *)
Lemma create_all_trimmed_counterexample :
  Valid annPadded
  /\ NonEmptyTrimmed annPadded
  /\ recordId (initDB created) = None
  /\ objects (db (initDB created)) = []
  /\ objects (db (onsubmit false annPadded (initDB created)))
     = [withId 1 (recordOf annPadded)]
  /\ course (withId 1 (recordOf annPadded)) <> trim (f_course annPadded)
  /\ ~ AllTrimmed annPadded (withId 1 (recordOf annPadded)).
Proof.
  split; [valid_input|].
  split; [unfold NonEmptyTrimmed; simpl; repeat split; discriminate|].
  repeat split; try reflexivity; try discriminate.
  intros (_ & _ & _ & H & _). discriminate H.
Qed.

(** C2, amended.  A valid submission in create mode whose trimmed
    [studentId] no stored record carries adds exactly one record: its id
    is the one the key generator held, which no record had; its
    [studentId], [fullname] and [email] are the trimmed input and its
    [course] and [yearLevel] the input as selected; every other record is
    as it was. *)
Theorem create_persists_as_submitted (input : Fields) (st : Page) :
  wf (db st) -> recordId st = None -> Valid input ->
  (forall x, In x (objects (db st)) -> studentId x <> trim (f_studentId input)) ->
  exists r,
    AsSubmitted input r
    /\ id r = keyGenerator (db st)
    /\ get (id r) (db st) = None
    /\ get (id r) (db (onsubmit false input st)) = Some r
    /\ (forall k, k <> id r ->
          get k (db (onsubmit false input st)) = get k (db st))
    /\ (forall x, In x (objects (db (onsubmit false input st)))
                  <-> x = r \/ In x (objects (db st)))
    /\ List.length (objects (db (onsubmit false input st)))
       = S (List.length (objects (db st)))
    /\ issued false input st
       = [IndexGet (trim (f_studentId input));
          StoreAdd (recordOf input);
          ShowMessage "Student record added successfully!" success;
          ShowMessage "Form reset." success].
Proof.
  intros W N V Hfree.
  exists (withId (keyGenerator (db st)) (recordOf input)).
  assert (Fresh : forall x, In x (objects (db st)) -> id x <> keyGenerator (db st)).
  { intros x Hx. pose proof (wf_keygen _ W) as K. specialize (K x Hx). lia. }
  unfold issued.
  rewrite (onsubmit_creates _ _ W N V Hfree), db_displayRecords.
  cbn [resetForm showMessage emit setForm setDb setTableBody displayRecords db trace].
  split; [repeat split|]. split; [reflexivity|].
  split; [now apply get_None|].
  split; [apply get_storeRecord_same|].
  split; [intros k Hk; now apply get_storeRecord_other|].
  split; [|split].
  - intros x. rewrite In_storeRecord. simpl. split.
    + tauto.
    + intros [E|Hx]; [now left | right]. split; [assumption | now apply Fresh].
  - simpl. rewrite length_insertByKey, removeKey_absent; [reflexivity | exact Fresh].
  - rewrite <- !app_assoc. apply skipn_length_app.
Qed.

Lemma create_persists_as_submitted_witness :
  (wf (db oneStudent) /\ recordId oneStudent = None /\ Valid bobCruz
   /\ (forall x, In x (objects (db oneStudent)) ->
         studentId x <> trim (f_studentId bobCruz)))
  /\ exists r,
       AsSubmitted bobCruz r
       /\ id r = keyGenerator (db oneStudent)
       /\ get (id r) (db oneStudent) = None
       /\ get (id r) (db (onsubmit false bobCruz oneStudent)) = Some r
       /\ (forall k, k <> id r ->
             get k (db (onsubmit false bobCruz oneStudent)) = get k (db oneStudent))
       /\ (forall x, In x (objects (db (onsubmit false bobCruz oneStudent)))
                     <-> x = r \/ In x (objects (db oneStudent)))
       /\ List.length (objects (db (onsubmit false bobCruz oneStudent)))
          = S (List.length (objects (db oneStudent)))
       /\ issued false bobCruz oneStudent
          = [IndexGet (trim (f_studentId bobCruz));
             StoreAdd (recordOf bobCruz);
             ShowMessage "Student record added successfully!" success;
             ShowMessage "Form reset." success].
Proof.
  assert (V : Valid bobCruz).
  { valid_input. }
  assert (F : forall x, In x (objects (db oneStudent)) ->
                studentId x <> trim (f_studentId bobCruz)).
  { intros x [<-|[]]. discriminate. }
  split.
  - split; [exact wf_oneStudent|]. split; [reflexivity|]. now split.
  - exact (create_persists_as_submitted bobCruz oneStudent wf_oneStudent eq_refl V F).
Defined.

(* ------------------------------------------------------------------ *)
(** * Updating without touching the studentId *)

(** C6.  In edit mode for a stored record, a valid submission whose
    trimmed [studentId] is the one the form was filled with goes straight
    to the write, without reading the index, whether or not that read
    would have worked; the write is accepted, the record at that id
    becomes the submitted one with the [studentId] it had, other records
    stay, and the check, had it been made, would have answered [true]. *)
Theorem update_with_unchanged_studentId (readFails : bool) (input : Fields)
  (st : Page) (k : Z) (r : StudentRecord) :
  wf (db st) -> get k (db st) = Some r ->
  recordId st = Some k -> originalId st = Some (studentId r) ->
  Valid input -> trim (f_studentId input) = studentId r ->
  issued readFails input st
  = [StorePut (withId k (recordOf input));
     ShowMessage ("Record for " ++ trim (f_fullname input) ++ " updated successfully!")
       success;
     ShowMessage "Form reset." success]
  /\ get k (db (onsubmit readFails input st)) = Some (withId k (recordOf input))
  /\ studentId (withId k (recordOf input)) = studentId r
  /\ (forall k', k' <> k ->
        get k' (db (onsubmit readFails input st)) = get k' (db st))
  /\ isStudentIdUnique false (studentId r) (Some k) (db st) = true.
Proof.
  intros W G N O V E. apply get_Some in G. destruct G as [Hr Hk].
  assert (Own : forall x, In x (objects (db st)) -> studentId x = studentId r -> id x = k).
  { intros x Hx Hs. rewrite <- Hk. now apply (wf_index _ W). }
  assert (U : violatesUnique (withId k (recordOf input)) (db st) = false).
  { apply violatesUnique_false. intros x Hx Hs. simpl in *. apply Own; congruence. }
  rewrite <- E in O. unfold issued.
  rewrite (onsubmit_updates_unchecked readFails _ _ _ N O V).
  rewrite (updateRecord_commits _ _ U), db_displayRecords.
  cbn [resetForm showMessage emit setForm setDb setTableBody displayRecords db trace].
  split; [|split; [|split; [|split]]].
  - rewrite <- !app_assoc. apply skipn_length_app.
  - apply (get_storeRecord_same (withId k (recordOf input))).
  - exact E.
  - intros k' Hk'. now apply get_storeRecord_other.
  - destruct (isStudentIdUnique false (studentId r) (Some k) (db st)) eqn:I;
      [reflexivity|].
    apply (isStudentIdUnique_false _ _ _ W) in I.
    destruct I as [x [Hx [Hs Hn]]]. elim Hn. f_equal. now apply Own.
Qed.

Lemma update_with_unchanged_studentId_witness :
  (wf (db (prepareUpdateForm 1 twoStudents))
   /\ get 1 (db (prepareUpdateForm 1 twoStudents)) = Some (withId 1 (recordOf annLee))
   /\ recordId (prepareUpdateForm 1 twoStudents) = Some 1
   /\ originalId (prepareUpdateForm 1 twoStudents)
      = Some (studentId (withId 1 (recordOf annLee)))
   /\ Valid annEdited
   /\ trim (f_studentId annEdited) = studentId (withId 1 (recordOf annLee)))
  /\ (issued true annEdited (prepareUpdateForm 1 twoStudents)
      = [StorePut (withId 1 (recordOf annEdited));
         ShowMessage ("Record for " ++ trim (f_fullname annEdited) ++ " updated successfully!")
           success;
         ShowMessage "Form reset." success]
      /\ get 1 (db (onsubmit true annEdited (prepareUpdateForm 1 twoStudents)))
         = Some (withId 1 (recordOf annEdited))
      /\ studentId (withId 1 (recordOf annEdited))
         = studentId (withId 1 (recordOf annLee))
      /\ (forall k', k' <> 1 ->
            get k' (db (onsubmit true annEdited (prepareUpdateForm 1 twoStudents)))
            = get k' (db (prepareUpdateForm 1 twoStudents)))
      /\ isStudentIdUnique false (studentId (withId 1 (recordOf annLee))) (Some 1)
           (db (prepareUpdateForm 1 twoStudents)) = true).
Proof.
  assert (V : Valid annEdited).
  { valid_input. }
  assert (W : wf (db (prepareUpdateForm 1 twoStudents))).
  { apply (wf_handle (EditClicked 1)), wf_twoStudents. }
  split.
  - split; [exact W|]. repeat split; try reflexivity; apply V.
  - exact (update_with_unchanged_studentId true annEdited
             (prepareUpdateForm 1 twoStudents) 1 (withId 1 (recordOf annLee))
             W eq_refl eq_refl eq_refl V eq_refl).
Defined.

(* ------------------------------------------------------------------ *)
(** * The table *)


Example table_after_display_samples :
  tableBody (oninput "zz" (initDB created))
  = [NoticeRow ("No records found matching " ++ quote ++ "zz" ++ quote ++ ".")]
  /\ tableBody (oninput "" (initDB created))
     = [NoticeRow "No student records in the database."]
  /\ tableBody (oninput "CRUZ" twoStudents)
     = [DataRow (withId 2 (recordOf bobCruz))].
Proof. repeat split; reflexivity. Qed.

(** X3.  On a store with the engine's invariants, which every store
    built by add, put and delete has, the rows one call of
    [displayRecords] shows come in strictly ascending order of id, and
    no two of them carry the same [studentId]. *)
Theorem rows_in_key_order (text : string) (st : Page) :
  wf (db st) ->
  StronglySorted keyLt (displayed text st)
  /\ forall a b,
       In a (displayed text st) -> In b (displayed text st) ->
       studentId a = studentId b -> a = b.
Proof.
  intros W. rewrite displayed_filter. split.
  - apply sorted_filter, (wf_sorted _ W).
  - intros a b Ha Hb E. apply filter_In in Ha, Hb.
    destruct Ha as [Ha _], Hb as [Hb _].
    apply (wf_key_unique _ _ _ W Ha Hb). now apply (wf_index _ W).
Qed.

Lemma rows_in_key_order_witness :
  wf (db twoStudents)
  /\ (StronglySorted keyLt (displayed "s" twoStudents)
      /\ forall a b,
           In a (displayed "s" twoStudents) -> In b (displayed "s" twoStudents) ->
           studentId a = studentId b -> a = b).
Proof.
  split; [exact wf_twoStudents|].
  exact (rows_in_key_order "s" twoStudents wf_twoStudents).
Defined.

Example rows_in_key_order_sample :
  map id (displayed "s" twoStudents) = [1; 2].
Proof. reflexivity. Qed.

(** X4.  After [deleteRecord] the table is empty, without even a row of
    text, whatever the store still holds: the refresh clears the table
    and then stops on the completion event it was handed.  The record is
    gone from the store, the form is as it was, and the next search
    input draws the remaining records. *)
Theorem delete_blanks_table (k : Z) (st : Page) :
  tableBody (deleteRecord k st) = []
  /\ In (Uncaught "TypeError: filterText.toLowerCase is not a function")
        (trace (deleteRecord k st))
  /\ objects (db (deleteRecord k st)) = removeKey k (objects (db st))
  /\ recordId (deleteRecord k st) = recordId st
  /\ originalId (deleteRecord k st) = originalId st
  /\ displayed "" (deleteRecord k st) = removeKey k (objects (db st)).
Proof.
  rewrite displayed_filter, deleteRecord_page.
  cbn [tableBody trace db recordId originalId delete objects openCursor].
  repeat split.
  - apply in_or_app. right. right. right. now left.
  - apply filter_all. reflexivity.
Qed.

Example delete_blanks_table_sample :
  tableBody (deleteRecord 1 twoStudents) = []
  /\ map id (objects (db (deleteRecord 1 twoStudents))) = [2]
  /\ map id (shown (tableBody (oninput "" (deleteRecord 1 twoStudents)))) = [2].
Proof. repeat split; reflexivity. Qed.

(* ------------------------------------------------------------------ *)
(** * Submissions as a whole *)

(** X5.  A submission is all or nothing.  Either the store, the form and
    the table are as before and the trace ends with an error message; or
    the input was valid, one record built from it is stored, the form is
    back in create mode and the table shows the whole store. *)
Theorem submission_all_or_nothing (readFails : bool) (input : Fields) (st : Page) :
  (exists events message,
     onsubmit readFails input st
     = mkPage (db st) (recordId st) (originalId st) (tableBody st)
         (trace st ++ events ++ [ShowMessage message error]))
  \/ (Valid input
      /\ exists k events,
           onsubmit readFails input st
           = mkPage (storeRecord (withId k (recordOf input)) (db st))
               None (Some "")
               (tableFor "" (storeRecord (withId k (recordOf input)) (db st)))
               (trace st ++ events ++ [ShowMessage "Form reset." success])
           /\ shown (tableFor "" (storeRecord (withId k (recordOf input)) (db st)))
              = objects (storeRecord (withId k (recordOf input)) (db st))).
Proof.
  destruct (onsubmit_cases readFails input st)
    as [(reads & message & E & _)
       |[(V & k & events & E & _)|(V & events & message & E & _)]].
  - left. now exists reads, message.
  - right. split; [assumption|]. exists k, events. split; [exact E|].
    apply shown_tableFor_all.
  - left. now exists events, message.
Qed.



(** X7.  Submitting the same valid form a second time in create mode,
    once the first submission has been handled to its end (record
    written, form reset, table drawn), stores nothing more: the first
    submission created the record, the second is turned down as a
    duplicate and leaves the page as the first made it, whether or not
    its index lookup works.  (A second submission dispatched while the
    first still awaits its lookup is another matter, outside this
    statement.) *)
Theorem second_submission_refused (readFails : bool) (input : Fields) (st : Page) :
  wf (db st) -> recordId st = None -> Valid input ->
  (forall x, In x (objects (db st)) -> studentId x <> trim (f_studentId input)) ->
  onsubmit readFails input (onsubmit false input st)
  = rejected (onsubmit false input st) [IndexGet (trim (f_studentId input))]
      ("Student ID " ++ trim (f_studentId input) ++ " already exists.")
  /\ List.length (objects (db (onsubmit readFails input (onsubmit false input st))))
     = S (List.length (objects (db st))).
Proof.
  intros W N V Hfree.
  assert (E : onsubmit readFails input (onsubmit false input st)
              = rejected (onsubmit false input st) [IndexGet (trim (f_studentId input))]
                  ("Student ID " ++ trim (f_studentId input) ++ " already exists.")).
  { assert (W1 : wf (db (onsubmit false input st))) by now apply wf_onsubmit.
    apply onsubmit_not_unique; [assumption| |].
    - rewrite (onsubmit_creates _ _ W N V Hfree). reflexivity.
    - destruct readFails; [reflexivity|].
      apply isStudentIdUnique_false; [assumption|].
      exists (withId (keyGenerator (db st)) (recordOf input)).
      rewrite (onsubmit_creates _ _ W N V Hfree), db_displayRecords.
      cbn [resetForm showMessage emit setForm setDb db recordId displayRecords
             setTableBody].
      split; [apply In_storeRecord; now left|]. split; [reflexivity | discriminate]. }
  split; [exact E|]. rewrite E. cbn [rejected db].
  rewrite (onsubmit_creates _ _ W N V Hfree), db_displayRecords.
  cbn [resetForm showMessage emit setForm setDb db storeRecord objects].
  rewrite length_insertByKey, removeKey_absent; [reflexivity|].
  intros x Hx. pose proof (wf_keygen _ W x Hx). cbn [withId id]. lia.
Qed.

Lemma second_submission_refused_witness :
  (wf (db oneStudent) /\ recordId oneStudent = None /\ Valid bobCruz
   /\ (forall x, In x (objects (db oneStudent)) ->
         studentId x <> trim (f_studentId bobCruz)))
  /\ (onsubmit false bobCruz (onsubmit false bobCruz oneStudent)
      = rejected (onsubmit false bobCruz oneStudent)
          [IndexGet (trim (f_studentId bobCruz))]
          ("Student ID " ++ trim (f_studentId bobCruz) ++ " already exists.")
      /\ List.length
           (objects (db (onsubmit false bobCruz (onsubmit false bobCruz oneStudent))))
         = S (List.length (objects (db oneStudent)))).
Proof.
  assert (V : Valid bobCruz) by valid_input.
  assert (F : forall x, In x (objects (db oneStudent)) ->
                studentId x <> trim (f_studentId bobCruz)).
  { intros x [<-|[]]. discriminate. }
  split.
  - split; [exact wf_oneStudent|]. split; [reflexivity|]. now split.
  - exact (second_submission_refused false bobCruz oneStudent
             wf_oneStudent eq_refl V F).
Defined.

(* ------------------------------------------------------------------ *)
(** * Editing *)

(** X8.  In edit mode for a stored record, a valid submission with a
    [studentId] that differs from the record's and that no record
    carries reads the index, then writes: the record at that id becomes
    the submitted one, records at other ids stay, and the [studentId]
    the record had is carried by no record any more. *)
Theorem update_with_new_studentId (input : Fields) (st : Page) (k : Z)
  (r : StudentRecord) :
  wf (db st) -> get k (db st) = Some r ->
  recordId st = Some k -> originalId st = Some (studentId r) ->
  Valid input -> trim (f_studentId input) <> studentId r ->
  (forall x, In x (objects (db st)) -> studentId x <> trim (f_studentId input)) ->
  issued false input st
  = [IndexGet (trim (f_studentId input));
     StorePut (withId k (recordOf input));
     ShowMessage ("Record for " ++ trim (f_fullname input) ++ " updated successfully!")
       success;
     ShowMessage "Form reset." success]
  /\ get k (db (onsubmit false input st)) = Some (withId k (recordOf input))
  /\ (forall k', k' <> k ->
        get k' (db (onsubmit false input st)) = get k' (db st))
  /\ (forall x, In x (objects (db (onsubmit false input st))) ->
        studentId x <> studentId r).
Proof.
  intros W G N O V D Hfree. apply get_Some in G. destruct G as [Hr Hk].
  assert (U : violatesUnique (withId k (recordOf input)) (db st) = false).
  { apply violatesUnique_false. intros x Hx Hs. now elim (Hfree x Hx). }
  assert (C : checkNeeded (recordId st) (originalId st) (trim (f_studentId input)) = true).
  { apply checkNeeded_true. right. rewrite O. congruence. }
  assert (E : onsubmit false input st
              = committed st (storeRecord (withId k (recordOf input)) (db st))
                  [IndexGet (trim (f_studentId input));
                   StorePut (withId k (recordOf input));
                   ShowMessage ("Record for " ++ trim (f_fullname input)
                                ++ " updated successfully!") success]).
  { rewrite (onsubmit_valid _ _ _ V). cbv zeta. cbn [recordOf f_studentId].
    rewrite C. cbn [emit db recordId].
    rewrite (isStudentIdUnique_free _ _ _ Hfree), N.
    change (mkPage (db st) (recordId st) (originalId st) (tableBody st)
              (trace st ++ [IndexGet (trim (f_studentId input))]))
      with (emit (IndexGet (trim (f_studentId input))) st).
    rewrite updateRecord_committed by exact U.
    apply committed_emit. }
  unfold issued. rewrite E. cbn [committed db trace].
  split; [|split; [|split]].
  - exact (skipn_length_app (trace st) _).
  - apply (get_storeRecord_same (withId k (recordOf input))).
  - intros k' Hk'. now apply get_storeRecord_other.
  - intros x Hx. apply In_storeRecord in Hx. destruct Hx as [->|[Hx Nx]].
    + cbn [withId studentId recordOf f_studentId]. exact D.
    + intros Hs. apply Nx. cbn [withId id]. rewrite <- Hk.
      now apply (wf_index _ W).
Qed.

Lemma update_with_new_studentId_witness :
  (wf (db (prepareUpdateForm 1 twoStudents))
   /\ get 1 (db (prepareUpdateForm 1 twoStudents)) = Some (withId 1 (recordOf annLee))
   /\ recordId (prepareUpdateForm 1 twoStudents) = Some 1
   /\ originalId (prepareUpdateForm 1 twoStudents)
      = Some (studentId (withId 1 (recordOf annLee)))
   /\ Valid annMoved
   /\ trim (f_studentId annMoved) <> studentId (withId 1 (recordOf annLee))
   /\ (forall x, In x (objects (db (prepareUpdateForm 1 twoStudents))) ->
         studentId x <> trim (f_studentId annMoved)))
  /\ (issued false annMoved (prepareUpdateForm 1 twoStudents)
      = [IndexGet (trim (f_studentId annMoved));
         StorePut (withId 1 (recordOf annMoved));
         ShowMessage ("Record for " ++ trim (f_fullname annMoved)
                      ++ " updated successfully!") success;
         ShowMessage "Form reset." success]
      /\ get 1 (db (onsubmit false annMoved (prepareUpdateForm 1 twoStudents)))
         = Some (withId 1 (recordOf annMoved))
      /\ (forall k', k' <> 1 ->
            get k' (db (onsubmit false annMoved (prepareUpdateForm 1 twoStudents)))
            = get k' (db (prepareUpdateForm 1 twoStudents)))
      /\ (forall x,
            In x (objects (db (onsubmit false annMoved (prepareUpdateForm 1 twoStudents)))) ->
            studentId x <> studentId (withId 1 (recordOf annLee)))).
Proof.
  assert (V : Valid annMoved) by valid_input.
  assert (W : wf (db (prepareUpdateForm 1 twoStudents))).
  { apply (wf_handle (EditClicked 1)), wf_twoStudents. }
  assert (D : trim (f_studentId annMoved) <> studentId (withId 1 (recordOf annLee))).
  { discriminate. }
  assert (F : forall x, In x (objects (db (prepareUpdateForm 1 twoStudents))) ->
                studentId x <> trim (f_studentId annMoved)).
  { intros x [<-|[<-|[]]]; discriminate. }
  split.
  - split; [exact W|]. split; [reflexivity|]. split; [reflexivity|].
    split; [reflexivity|]. split; [exact V|]. now split.
  - exact (update_with_new_studentId annMoved (prepareUpdateForm 1 twoStudents) 1
             (withId 1 (recordOf annLee)) W eq_refl eq_refl eq_refl V D F).
Defined.

(** X9.  Deleting a record does not take the form out of edit mode for
    it.  When the record is opened for editing, then deleted, and the
    form is then submitted with valid values and the [studentId] the
    record had, no check is made and the submission is not turned down:
    the record is stored again under its old id. *)
Theorem edit_delete_submit_recreates (readFails : bool) (input : Fields)
  (st : Page) (k : Z) (r : StudentRecord) :
  wf (db st) -> get k (db st) = Some r ->
  Valid input -> trim (f_studentId input) = studentId r ->
  get k (db (deleteRecord k (prepareUpdateForm k st))) = None
  /\ recordId (deleteRecord k (prepareUpdateForm k st)) = Some k
  /\ get k (db (onsubmit readFails input (deleteRecord k (prepareUpdateForm k st))))
     = Some (withId k (recordOf input))
  /\ recordId (onsubmit readFails input (deleteRecord k (prepareUpdateForm k st)))
     = None
  /\ existsb isWrite
       (issued readFails input (deleteRecord k (prepareUpdateForm k st))) = true.
Proof.
  intros W G V E. pose proof (get_Some _ _ _ G) as [Hr Hk].
  assert (P : deleteRecord k (prepareUpdateForm k st)
              = mkPage (delete k (db st)) (Some k) (Some (studentId r)) []
                  ((trace st ++ [ShowMessage ("Editing record for " ++ fullname r ++ ".")
                                   success]) ++
                   [StoreDelete k; ShowMessage "Record deleted successfully!" success;
                    Uncaught "TypeError: filterText.toLowerCase is not a function"])).
  { rewrite deleteRecord_page. unfold prepareUpdateForm. rewrite G.
    cbn [showMessage emit setForm db recordId originalId trace]. now rewrite Hk. }
  rewrite P. set (st2 := mkPage _ _ _ _ _).
  assert (U : violatesUnique (withId k (recordOf input)) (db st2) = false).
  { apply violatesUnique_false. intros x Hx Hs. exfalso.
    cbn [st2 db] in Hx. apply In_delete in Hx. destruct Hx as [Hx Nx].
    apply Nx. rewrite <- Hk. apply (wf_index _ W); [assumption | assumption|].
    cbn [withId studentId recordOf f_studentId] in Hs. congruence. }
  assert (S : onsubmit readFails input st2
              = committed st2 (storeRecord (withId k (recordOf input)) (db st2))
                  [StorePut (withId k (recordOf input));
                   ShowMessage ("Record for " ++ fullname (withId k (recordOf input))
                                ++ " updated successfully!") success]).
  { rewrite (onsubmit_updates_unchecked readFails input st2 k); try assumption.
    - now apply updateRecord_committed.
    - reflexivity.
    - cbn [st2 originalId]. now rewrite E. }
  split; [apply get_delete_same|]. split; [reflexivity|].
  unfold issued. rewrite S. cbn [committed db recordId trace].
  split; [apply (get_storeRecord_same (withId k (recordOf input)))|].
  split; [reflexivity|].
  rewrite skipn_length_app. reflexivity.
Qed.

Lemma edit_delete_submit_recreates_witness :
  (wf (db twoStudents)
   /\ get 1 (db twoStudents) = Some (withId 1 (recordOf annLee))
   /\ Valid annEdited
   /\ trim (f_studentId annEdited) = studentId (withId 1 (recordOf annLee)))
  /\ (get 1 (db (deleteRecord 1 (prepareUpdateForm 1 twoStudents))) = None
      /\ recordId (deleteRecord 1 (prepareUpdateForm 1 twoStudents)) = Some 1
      /\ get 1 (db (onsubmit false annEdited
                      (deleteRecord 1 (prepareUpdateForm 1 twoStudents))))
         = Some (withId 1 (recordOf annEdited))
      /\ recordId (onsubmit false annEdited
                     (deleteRecord 1 (prepareUpdateForm 1 twoStudents))) = None
      /\ existsb isWrite
           (issued false annEdited
              (deleteRecord 1 (prepareUpdateForm 1 twoStudents))) = true).
Proof.
  assert (V : Valid annEdited) by valid_input.
  split.
  - split; [exact wf_twoStudents|]. split; [reflexivity|]. now split.
  - exact (edit_delete_submit_recreates false annEdited twoStudents 1
             (withId 1 (recordOf annLee)) wf_twoStudents eq_refl V eq_refl).
Defined.

(* ------------------------------------------------------------------ *)
(** * Creating and deleting *)

(** X10.  Creating a record and then deleting the id it was given brings
    back the records there were, in their order; the key generator does
    not go back. *)
Theorem create_then_delete_restores (input : Fields) (st : Page) :
  wf (db st) -> recordId st = None -> Valid input ->
  (forall x, In x (objects (db st)) -> studentId x <> trim (f_studentId input)) ->
  objects (db (deleteRecord (keyGenerator (db st)) (onsubmit false input st)))
  = objects (db st)
  /\ keyGenerator (db (deleteRecord (keyGenerator (db st)) (onsubmit false input st)))
     = keyGenerator (db st) + 1.
Proof.
  intros W N V Hfree.
  rewrite deleteRecord_page, (onsubmit_creates _ _ W N V Hfree), db_displayRecords.
  cbn [resetForm showMessage emit setForm setDb db].
  assert (G : get (id (withId (keyGenerator (db st)) (recordOf input))) (db st) = None).
  { apply get_None. intros x Hx. pose proof (wf_keygen _ W x Hx). cbn [withId id]. lia. }
  split.
  - exact (delete_storeRecord_fresh _ _ G).
  - cbn [delete storeRecord keyGenerator withId id]. lia.
Qed.

Lemma create_then_delete_restores_witness :
  (wf (db oneStudent) /\ recordId oneStudent = None /\ Valid bobCruz
   /\ (forall x, In x (objects (db oneStudent)) ->
         studentId x <> trim (f_studentId bobCruz)))
  /\ (objects (db (deleteRecord (keyGenerator (db oneStudent))
                     (onsubmit false bobCruz oneStudent)))
      = objects (db oneStudent)
      /\ keyGenerator (db (deleteRecord (keyGenerator (db oneStudent))
                             (onsubmit false bobCruz oneStudent)))
         = keyGenerator (db oneStudent) + 1).
Proof.
  assert (V : Valid bobCruz) by valid_input.
  assert (F : forall x, In x (objects (db oneStudent)) ->
                studentId x <> trim (f_studentId bobCruz)).
  { intros x [<-|[]]. discriminate. }
  split.
  - split; [exact wf_oneStudent|]. split; [reflexivity|]. now split.
  - exact (create_then_delete_restores bobCruz oneStudent wf_oneStudent eq_refl V F).
Defined.

(** X11.  Whatever has happened on the page since the store was created,
    every stored record has its [studentId], [fullname] and [email]
    free of whitespace at both ends, and an [email] of the required
    shape. *)
Theorem stored_records_normalized (actions : list Action) :
  Forall Normalized (objects (db (run actions (initDB created)))).
Proof.
  apply Forall_forall. apply (stored_run Normalized).
  - intros input k (_ & _ & _ & _ & _ & T). unfold Normalized.
    cbn [withId recordOf studentId fullname email f_studentId f_fullname f_email].
    rewrite !trim_twice. now repeat split.
  - intros x [].
Qed.

(** X12.  Ids are not used again.  The id of a record of the store stays
    below the key generator whatever is done on the page afterwards,
    deletions included; so a record created later, which gets the key
    generator's value as its id, never gets the id of a record there
    was. *)
Theorem ids_not_reused (st : Page) (x : StudentRecord) (actions : list Action)
  (input : Fields) :
  wf (db st) -> In x (objects (db st)) ->
  recordId (run actions st) = None -> Valid input ->
  (forall y, In y (objects (db (run actions st))) ->
     studentId y <> trim (f_studentId input)) ->
  id x < keyGenerator (db (run actions st))
  /\ get (keyGenerator (db (run actions st)))
       (db (onsubmit false input (run actions st)))
     = Some (withId (keyGenerator (db (run actions st))) (recordOf input)).
Proof.
  intros W Hx N V Hfree. split.
  - pose proof (wf_keygen _ W x Hx). pose proof (keyGenerator_run actions st). lia.
  - assert (W' : wf (db (run actions st))) by now apply wf_run.
    rewrite (onsubmit_creates _ _ W' N V Hfree), db_displayRecords.
    cbn [resetForm showMessage emit setForm setDb db].
    apply (get_storeRecord_same
             (withId (keyGenerator (db (run actions st))) (recordOf input))).
Qed.

Lemma ids_not_reused_witness :
  (wf (db twoStudents)
   /\ In (withId 2 (recordOf bobCruz)) (objects (db twoStudents))
   /\ recordId (run [DeleteClicked 2 "Bob Cruz" true] twoStudents) = None
   /\ Valid caraInput
   /\ (forall y, In y (objects (db (run [DeleteClicked 2 "Bob Cruz" true] twoStudents))) ->
         studentId y <> trim (f_studentId caraInput)))
  /\ (id (withId 2 (recordOf bobCruz))
      < keyGenerator (db (run [DeleteClicked 2 "Bob Cruz" true] twoStudents))
      /\ get (keyGenerator (db (run [DeleteClicked 2 "Bob Cruz" true] twoStudents)))
           (db (onsubmit false caraInput
                  (run [DeleteClicked 2 "Bob Cruz" true] twoStudents)))
         = Some (withId (keyGenerator (db (run [DeleteClicked 2 "Bob Cruz" true]
                                             twoStudents)))
                   (recordOf caraInput))).
Proof.
  assert (V : Valid caraInput) by valid_input.
  assert (I : In (withId 2 (recordOf bobCruz)) (objects (db twoStudents))).
  { right. left. reflexivity. }
  assert (F : forall y,
             In y (objects (db (run [DeleteClicked 2 "Bob Cruz" true] twoStudents))) ->
             studentId y <> trim (f_studentId caraInput)).
  { intros y [<-|[]]. discriminate. }
  split.
  - split; [exact wf_twoStudents|]. split; [exact I|]. split; [reflexivity|].
    now split.
  - exact (ids_not_reused twoStudents (withId 2 (recordOf bobCruz))
             [DeleteClicked 2 "Bob Cruz" true] caraInput
             wf_twoStudents I eq_refl V F).
Defined.

(** The record created after Bob Cruz was deleted gets id 3, not 2. *)
Example ids_not_reused_sample :
  map id (objects (db (onsubmit false caraInput
                         (run [DeleteClicked 2 "Bob Cruz" true] twoStudents))))
  = [1; 3].
Proof. reflexivity. Qed.

(* ------------------------------------------------------------------ *)
(** * Leaving edit mode *)

(** X13.  [resetForm] takes the form back to create mode.  When a stored
    record is opened for editing and the form is reset, a valid
    submission with the [studentId] of that record is a new record's and
    is turned down as a duplicate; the stored record stays as it was. *)
Theorem reset_leaves_edit_mode (readFails : bool) (input : Fields) (st : Page)
  (k : Z) (r : StudentRecord) :
  wf (db st) -> get k (db st) = Some r ->
  Valid input -> trim (f_studentId input) = studentId r ->
  recordId (resetForm (prepareUpdateForm k st)) = None
  /\ onsubmit readFails input (resetForm (prepareUpdateForm k st))
     = rejected (resetForm (prepareUpdateForm k st))
         [IndexGet (trim (f_studentId input))]
         ("Student ID " ++ trim (f_studentId input) ++ " already exists.")
  /\ get k (db (onsubmit readFails input (resetForm (prepareUpdateForm k st))))
     = Some r.
Proof.
  intros W G V E. pose proof (get_Some _ _ _ G) as [Hr Hk].
  assert (D : db (resetForm (prepareUpdateForm k st)) = db st).
  { unfold prepareUpdateForm. now rewrite G. }
  assert (S : onsubmit readFails input (resetForm (prepareUpdateForm k st))
              = rejected (resetForm (prepareUpdateForm k st))
                  [IndexGet (trim (f_studentId input))]
                  ("Student ID " ++ trim (f_studentId input) ++ " already exists.")).
  { apply onsubmit_not_unique; [assumption | reflexivity |].
    destruct readFails; [reflexivity|].
    apply isStudentIdUnique_false; [now rewrite D|].
    exists r. rewrite D. split; [assumption|]. split; [now symmetry | discriminate]. }
  split; [reflexivity|]. split; [exact S|].
  rewrite S. cbn [rejected db]. now rewrite D.
Qed.

Lemma reset_leaves_edit_mode_witness :
  (wf (db twoStudents)
   /\ get 1 (db twoStudents) = Some (withId 1 (recordOf annLee))
   /\ Valid annEdited
   /\ trim (f_studentId annEdited) = studentId (withId 1 (recordOf annLee)))
  /\ (recordId (resetForm (prepareUpdateForm 1 twoStudents)) = None
      /\ onsubmit false annEdited (resetForm (prepareUpdateForm 1 twoStudents))
         = rejected (resetForm (prepareUpdateForm 1 twoStudents))
             [IndexGet (trim (f_studentId annEdited))]
             ("Student ID " ++ trim (f_studentId annEdited) ++ " already exists.")
      /\ get 1 (db (onsubmit false annEdited
                      (resetForm (prepareUpdateForm 1 twoStudents))))
         = Some (withId 1 (recordOf annLee))).
Proof.
  assert (V : Valid annEdited) by valid_input.
  split.
  - split; [exact wf_twoStudents|]. split; [reflexivity|]. now split.
  - exact (reset_leaves_edit_mode false annEdited twoStudents 1
             (withId 1 (recordOf annLee)) wf_twoStudents eq_refl V eq_refl).
Defined.

